(** * Cart client of [assets/global.js]

    A shallow embedding of the seven cart operations ([fetchCart],
    [updateCart], [changeCartItem], [addToCart], [clearCart],
    [prepareShippingRates], [fetchShippingRates]) together with the part of
    the JavaScript run time they rely on: property-ordered objects, spread,
    [Object.entries] / [Object.fromEntries], [encodeURIComponent],
    [JSON.stringify], and [fetch] seen as an interaction with the platform.

    Modelling conventions.
    - A JavaScript string is the [string] of its bytes in generalised UTF-8:
      UTF-8, with an unpaired surrogate written as the three bytes
      [ED A0..BF 80..BF] and a surrogate pair always as one four-byte
      sequence.
    - A JavaScript number is an integer [Z] (quantities, line positions,
      status codes) within the safe integers; fractional numbers, NaN and
      integers from 10^21, which the language prints with an exponent, are
      outside the model.
    - An object is the list of its own enumerable string-keyed properties in
      the order the language enumerates them; a function and a symbol are
      opaque values.  BigInt values, cyclic objects and objects with a
      [toJSON] or [toString] of their own are outside the model.
    - An [async] function is a computation over the [World]: it resolves with
      a value or rejects with an error, and leaves behind the requests it made
      and the lines it printed with [console.error]. *)

From Stdlib Require Import List String Ascii ZArith NArith Bool Lia DecimalString.
From Stdlib Require Decimal DecimalFacts DecimalPos DecimalN DecimalZ.
Import ListNotations.

Set Warnings "-register-all".

Local Open Scope string_scope.
Local Open Scope Z_scope.

(* ================================================================= *)
(** ** JavaScript values *)

Module Js.

Inductive value : Type :=
| VUndefined
| VNull
| VBool (b : bool)
| VNum (n : Z)
| VStr (s : string)
| VArr (elems : list value)
| VObj (props : list (string * value))
| VFun (source : string)
| VSym (description : string).

(** Own enumerable properties, in enumeration order. *)
Definition obj := list (string * value).

(** Errors that can be thrown: an error object with its [name] and
    [message]. *)
Record error : Type := MkError { err_name : string; err_message : string }.

Inductive completion (A : Type) : Type :=
| Normal (a : A)
| Abrupt (e : error).
Arguments Normal {A} a.
Arguments Abrupt {A} e.

Definition TypeError (msg : string) : error := MkError "TypeError" msg.

(** What [encodeURIComponent] throws on an unpaired surrogate. *)
Definition URI_malformed : error := MkError "URIError" "URI malformed".

(** What [ToString] throws on a symbol. *)
Definition symbol_to_string : error :=
  TypeError "Cannot convert a Symbol value to a string".

(** Sequencing of synchronous code that may throw. *)
Definition cbind {A B : Type} (c : completion A) (k : A -> completion B)
  : completion B :=
  match c with
  | Normal a => k a
  | Abrupt e => Abrupt e
  end.

Notation "'let*' x ':=' c 'in' k" := (cbind c (fun x => k))
  (at level 10, x name, c at level 100, k at level 200).

(** [ToBoolean]. *)
Definition truthy (v : value) : bool :=
  match v with
  | VUndefined | VNull => false
  | VBool b => b
  | VNum n => negb (n =? 0)
  | VStr s => negb (String.eqb s EmptyString)
  | VArr _ | VObj _ | VFun _ | VSym _ => true
  end.

(** [a && b] on values: the left operand when it is falsy, else the right. *)
Definition and_then (a b : value) : value := if truthy a then b else a.

(** A parameter with a default: the default is taken when the argument is
    [undefined]. *)
Definition default_to (d v : value) : value :=
  match v with VUndefined => d | _ => v end.

(** *** Numbers as strings *)

(** The decimal digits of an integer, with a minus sign when negative: what
    the language prints for every integer below 10^21 in magnitude. *)
Definition Number_toString (n : Z) : string :=
  NilZero.string_of_int (Z.to_int n).

(** *** Property keys and their order *)

Definition digit_of (c : ascii) : option N :=
  let n := N_of_ascii c in
  if ((48 <=? n) && (n <=? 57))%N then Some (n - 48)%N else None.

Fixpoint parse_digits (acc : N) (s : string) : option N :=
  match s with
  | EmptyString => Some acc
  | String c t =>
      match digit_of c with
      | Some d => parse_digits (10 * acc + d)%N t
      | None => None
      end
  end.

(** A key is an array index when it is the canonical decimal spelling of an
    integer below 2^32 - 1: digits only, no leading zero except for "0". *)
Definition array_index (k : string) : option N :=
  match k with
  | EmptyString => None
  | String c t =>
      match parse_digits 0 k with
      | Some n =>
          if (negb (Ascii.eqb c "0") || String.eqb t EmptyString)
             && (n <? 4294967295)%N
          then Some n else None
      | None => None
      end
  end.

Definition has_key (k : string) (o : obj) : bool :=
  existsb (fun p => String.eqb (fst p) k) o.

Fixpoint lookup (k : string) (o : obj) : option value :=
  match o with
  | [] => None
  | (k', v) :: t => if String.eqb k' k then Some v else lookup k t
  end.

Fixpoint obj_replace (k : string) (v : value) (o : obj) : obj :=
  match o with
  | [] => []
  | (k', v') :: t =>
      if String.eqb k' k then (k', v) :: t else (k', v') :: obj_replace k v t
  end.

Fixpoint obj_insert_index (n : N) (k : string) (v : value) (o : obj) : obj :=
  match o with
  | [] => [(k, v)]
  | (k', v') :: t =>
      match array_index k' with
      | Some m =>
          if (m <? n)%N then (k', v') :: obj_insert_index n k v t
          else (k, v) :: o
      | None => (k, v) :: o
      end
  end.

(** Defining property [k] on an object: an existing property keeps its
    place; a new array-index key goes among the index keys in ascending
    order; any other new key goes last. *)
Definition obj_set (k : string) (v : value) (o : obj) : obj :=
  if has_key k o then obj_replace k v o
  else match array_index k with
       | Some n => obj_insert_index n k v o
       | None => (o ++ [(k, v)])%list
       end.

Definition obj_set_all (ps : list (string * value)) (o : obj) : obj :=
  fold_left (fun acc p => obj_set (fst p) (snd p) acc) ps o.

(** [Object.fromEntries] over a list of [key, value] pairs. *)
Definition Object_fromEntries (ps : list (string * value)) : obj :=
  obj_set_all ps [].

(** The order in which a key may precede another inside one object. *)
Definition key_before (k k' : string) : bool :=
  negb (String.eqb k k') &&
  match array_index k, array_index k' with
  | Some a, Some b => (a <? b)%N
  | Some _, None => true
  | None, None => true
  | None, Some _ => false
  end.

Fixpoint keys_ordered (ks : list string) : bool :=
  match ks with
  | [] => true
  | k :: t => forallb (key_before k) t && keys_ordered t
  end.

(** A property list is that of a real object when its keys are distinct,
    index keys come first in ascending order, and the others follow. *)
Definition wf_obj (o : obj) : bool := keys_ordered (map fst o).

(** *** Enumerating own properties *)

Fixpoint indexed {A : Type} (i : nat) (l : list A) : list (string * A) :=
  match l with
  | [] => []
  | x :: t => (Number_toString (Z.of_nat i), x) :: indexed (S i) t
  end.

Definition in_range (lo hi : N) (c : ascii) : bool :=
  ((lo <=? N_of_ascii c) && (N_of_ascii c <=? hi))%N.

(** The surrogate code unit [u] (from D800 to DFFF) as a one-unit string. *)
Definition surrogate_string (u : N) : string :=
  String (ascii_of_N 237)
    (String (ascii_of_N (128 + (u / 64) mod 64))
       (String (ascii_of_N (128 + u mod 64)) EmptyString)).

(** The code point minus 10000 (hex) of a four-byte sequence. *)
Definition astral_offset (a b c d : ascii) : N :=
  ((N_of_ascii a mod 8) * 262144 + (N_of_ascii b mod 64) * 4096
   + (N_of_ascii c mod 64) * 64 + N_of_ascii d mod 64 - 65536)%N.

(** The UTF-16 code units of a string as one-unit strings: a sequence of one,
    two or three bytes is one unit, a four-byte sequence is the two units of
    a surrogate pair.  (A sequence cut short at the end of the string, which
    no string of the language has, is kept whole.) *)
Fixpoint chars (s : string) : list value :=
  match s with
  | EmptyString => []
  | String a t =>
      if in_range 240 247 a then
        match t with
        | String b (String c (String d t')) =>
            let u := astral_offset a b c d in
            VStr (surrogate_string (55296 + u / 1024))
              :: VStr (surrogate_string (56320 + u mod 1024)) :: chars t'
        | _ => [VStr s]
        end
      else if in_range 224 239 a then
        match t with
        | String b (String c t') =>
            VStr (String a (String b (String c EmptyString))) :: chars t'
        | _ => [VStr s]
        end
      else if in_range 192 223 a then
        match t with
        | String b t' => VStr (String a (String b EmptyString)) :: chars t'
        | _ => [VStr s]
        end
      else VStr (String a EmptyString) :: chars t
  end.

(** Own enumerable string-keyed properties of a value that is already an
    object or has been boxed ([ToObject] done). *)
Definition own_props (v : value) : obj :=
  match v with
  | VObj o => o
  | VArr l => indexed 0 l
  | VStr s => indexed 0 (chars s)
  | _ => []
  end.

(** [Object.entries(v)]: throws on [undefined] and [null]. *)
Definition Object_entries (v : value) : completion (list (string * value)) :=
  match v with
  | VUndefined | VNull =>
      Abrupt (TypeError "Cannot convert undefined or null to object")
  | _ => Normal (own_props v)
  end.

(** [Object.keys(v)]: throws on [undefined] and [null]. *)
Definition Object_keys (v : value) : completion (list string) :=
  match Object_entries v with
  | Normal ps => Normal (map fst ps)
  | Abrupt e => Abrupt e
  end.

(** Spread of [v] inside an object literal: [undefined] and [null]
    contribute nothing, anything else its own properties. *)
Definition spread (v : value) (o : obj) : obj := obj_set_all (own_props v) o.

(** *** [ToString] *)

(** [ToString]: throws on a symbol; a function gives its source text, an
    object without a [toString] of its own gives "[object Object]". *)
Fixpoint ToString (v : value) : completion string :=
  match v with
  | VUndefined => Normal "undefined"
  | VNull => Normal "null"
  | VBool true => Normal "true"
  | VBool false => Normal "false"
  | VNum n => Normal (Number_toString n)
  | VStr s => Normal s
  | VArr l =>
      (* Array.prototype.join with a comma; null and undefined give nothing *)
      (fix join (l : list value) : completion string :=
         match l with
         | [] => Normal EmptyString
         | x :: t =>
             let* sx := match x with
                        | VUndefined | VNull => Normal EmptyString
                        | _ => ToString x
                        end in
             match t with
             | [] => Normal sx
             | _ :: _ => let* st := join t in Normal (sx ++ "," ++ st)
             end
         end) l
  | VObj _ => Normal "[object Object]"
  | VFun source => Normal source
  | VSym _ => Abrupt symbol_to_string
  end.

(** *** [encodeURIComponent] *)

Definition is_digit (c : ascii) : bool := in_range 48 57 c.

Definition uri_marks : list ascii :=
  ["-"; "_"; "."; "!"; "~"; "*"; "'"; "("; ")"]%char.

(** Characters that [encodeURIComponent] leaves alone. *)
Definition unreserved (c : ascii) : bool :=
  in_range 65 90 c || in_range 97 122 c || is_digit c
  || existsb (Ascii.eqb c) uri_marks.

Definition hex_upper (n : N) : ascii :=
  if (n <? 10)%N then ascii_of_N (48 + n) else ascii_of_N (55 + n).

Definition percent (c : ascii) : string :=
  String "%" (String (hex_upper (N_of_ascii c / 16))
             (String (hex_upper (N_of_ascii c mod 16)) EmptyString)).

(** On the bytes of a string: every byte that is not unreserved becomes a
    percent sign and two upper-case hexadecimal digits. *)
Fixpoint encode_bytes (s : string) : string :=
  match s with
  | EmptyString => EmptyString
  | String c t =>
      if unreserved c then String c (encode_bytes t)
      else percent c ++ encode_bytes t
  end.

(** Whether a string holds an unpaired surrogate: the byte [ED] followed by
    a byte from [A0] to [BF]. *)
Fixpoint lone_surrogate (s : string) : bool :=
  match s with
  | EmptyString => false
  | String c t =>
      ((N_of_ascii c =? 237)%N
       && match t with
          | String d _ => in_range 160 191 d
          | EmptyString => false
          end)
      || lone_surrogate t
  end.

(** [encodeURIComponent(v)]: the argument is turned into a string first;
    throws [URIError] when that string holds an unpaired surrogate. *)
Definition encodeURIComponent (v : value) : completion string :=
  let* s := ToString v in
  if lone_surrogate s then Abrupt URI_malformed
  else Normal (encode_bytes s).

(** *** [JSON.stringify] *)

Inductive json : Type :=
| JNull
| JBool (b : bool)
| JNum (n : Z)
| JStr (s : string)
| JArr (elems : list json)
| JObj (members : list (string * json)).

(** Members of an object that survive serialisation: a property whose value
    serialises to nothing ([undefined], a function, a symbol) is left out. *)
Definition keep_defined (f : value -> option json) (o : list (string * value))
  : list (string * json) :=
  flat_map (fun p => match f (snd p) with
                     | Some j => [(fst p, j)]
                     | None => []
                     end) o.

(** What [JSON.stringify] keeps of a value: [undefined], a function and a
    symbol serialise to nothing; a property with such a value is left out, an
    array element with such a value becomes [null]. *)
Fixpoint to_json (v : value) : option json :=
  match v with
  | VUndefined => None
  | VNull => Some JNull
  | VBool b => Some (JBool b)
  | VNum n => Some (JNum n)
  | VStr s => Some (JStr s)
  | VArr l =>
      Some (JArr (map (fun x => match to_json x with
                                | Some j => j
                                | None => JNull
                                end) l))
  | VObj o => Some (JObj (keep_defined to_json o))
  | VFun _ | VSym _ => None
  end.

Definition dquote : ascii := "034"%char.
Definition backslash : ascii := "092"%char.

Definition hex_lower (n : N) : ascii :=
  if (n <? 10)%N then ascii_of_N (48 + n) else ascii_of_N (87 + n).

Definition escape_char (c : ascii) : string :=
  let n := N_of_ascii c in
  if (n =? 34)%N then String backslash (String dquote EmptyString)
  else if (n =? 92)%N then String backslash (String backslash EmptyString)
  else if (n =? 8)%N then String backslash "b"
  else if (n =? 9)%N then String backslash "t"
  else if (n =? 10)%N then String backslash "n"
  else if (n =? 12)%N then String backslash "f"
  else if (n =? 13)%N then String backslash "r"
  else if (n <? 32)%N then
    String backslash
      ("u00" ++ String (hex_lower (n / 16))
                  (String (hex_lower (n mod 16)) EmptyString))
  else String c EmptyString.

(** The escape of the unpaired surrogate written [ED b c]: a backslash,
    [u] and its four lower-case hexadecimal digits. *)
Definition escape_surrogate (b c : ascii) : string :=
  String backslash
    ("ud" ++ String (hex_lower ((N_of_ascii b mod 64) / 4))
               (String (hex_lower ((N_of_ascii b mod 4) * 4
                                   + (N_of_ascii c mod 64) / 16))
                  (String (hex_lower (N_of_ascii c mod 16)) EmptyString))).

Fixpoint escape (s : string) : string :=
  match s with
  | EmptyString => EmptyString
  | String a t =>
      match t with
      | String b (String c t') =>
          if (N_of_ascii a =? 237)%N && in_range 160 191 b
          then escape_surrogate b c ++ escape t'
          else escape_char a ++ escape t
      | _ => escape_char a ++ escape t
      end
  end.

Definition quote (s : string) : string :=
  String dquote (escape s ++ String dquote EmptyString).

(** The text of a JSON tree, without white space. *)
Fixpoint render (j : json) : string :=
  match j with
  | JNull => "null"
  | JBool true => "true"
  | JBool false => "false"
  | JNum n => Number_toString n
  | JStr s => quote s
  | JArr l =>
      "[" ++ (fix elems (l : list json) : string :=
                match l with
                | [] => EmptyString
                | x :: t =>
                    match t with
                    | [] => render x
                    | _ :: _ => render x ++ "," ++ elems t
                    end
                end) l ++ "]"
  | JObj o =>
      "{" ++ (fix members (o : list (string * json)) : string :=
                match o with
                | [] => EmptyString
                | (k, x) :: t =>
                    match t with
                    | [] => quote k ++ ":" ++ render x
                    | _ :: _ => quote k ++ ":" ++ render x ++ "," ++ members t
                    end
                end) o ++ "}"
  end.

(** [JSON.stringify(v)]; [None] stands for the result [undefined]. *)
Definition JSON_stringify (v : value) : option string :=
  option_map render (to_json v).

End Js.

Import Js.

(* ================================================================= *)
(** ** Object literals *)

Inductive part : Type :=
| Field (k : string) (v : value)
| Spread (v : value).

Definition add_part (o : obj) (p : part) : obj :=
  match p with
  | Field k v => obj_set k v o
  | Spread v => spread v o
  end.

(** An object literal, its parts taken from left to right. *)
Definition object_literal (parts : list part) : value :=
  VObj (fold_left add_part parts []).

(* ================================================================= *)
(** ** The platform seen through [fetch] *)

Inductive method : Type := GET | POST.

Record request : Type := MkRequest {
  req_url : string;
  req_method : method;
  req_headers : list (string * string);
  req_body : option string
}.

(** What the client reads of a response: [ok], [status] and the outcome of
    reading the body with [json()] or [text()]. *)
Record response : Type := MkResponse {
  ok : bool;
  status : Z;
  json_body : completion value;
  text_body : completion string
}.

(** A request either completes with a response or fails in transport. *)
Inductive fetch_result : Type :=
| Responded (r : response)
| Failed (e : error).

(** The world an operation runs in: the root path of
    [window.Shopify.routes.root], the platform (its answer to the latest
    request, given all requests sent so far), the requests sent and the lines
    printed with [console.error]. *)
Record World : Type := MkWorld {
  root : string;
  platform : list request -> fetch_result;
  sent : list request;
  console : list (string * error)
}.

Definition async (A : Type) : Type := World -> completion A * World.

Definition ret {A : Type} (a : A) : async A := fun w => (Normal a, w).

Definition throw {A : Type} (e : error) : async A := fun w => (Abrupt e, w).

Definition bind {A B : Type} (m : async A) (k : A -> async B) : async B :=
  fun w =>
    match m w with
    | (Normal a, w') => k a w'
    | (Abrupt e, w') => (Abrupt e, w')
    end.

Notation "x <- m ;; k" := (bind m (fun x => k))
  (at level 100, m at next level, right associativity).

Definition try_catch {A : Type} (m : async A) (h : error -> async A)
  : async A :=
  fun w =>
    match m w with
    | (Normal a, w') => (Normal a, w')
    | (Abrupt e, w') => h e w'
    end.

Definition lift {A : Type} (c : completion A) : async A := fun w => (c, w).

Definition routes_root : async string := fun w => (Normal (root w), w).

Definition fetch (req : request) : async response :=
  fun w =>
    let sent' := (sent w ++ [req])%list in
    let w' := MkWorld (root w) (platform w) sent' (console w) in
    match platform w sent' with
    | Responded r => (Normal r, w')
    | Failed e => (Abrupt e, w')
    end.

Definition console_error (msg : string) (e : error) : async unit :=
  fun w =>
    (Normal tt,
     MkWorld (root w) (platform w) (sent w) (console w ++ [(msg, e)])%list).

Definition JSON_HEADERS : list (string * string) :=
  [("Content-Type", "application/json")].

(** [new Error(`HTTP error! status: ${response.status}`)] *)
Definition http_error (r : response) : error :=
  MkError "Error" ("HTTP error! status: " ++ Number_toString (status r)).

(** The [catch] block shared by all operations: print, then throw the
    caught error again. *)
Definition log_and_rethrow {A : Type} (msg : string) (e : error) : async A :=
  _ <- console_error msg e ;; throw e.

(* ================================================================= *)
(** ** The cart operations *)

Definition fetchCart_request (w_root : string) : request :=
  MkRequest (w_root ++ "cart.js") GET [] None.

Definition fetchCart : async value :=
  try_catch
    (r <- routes_root ;;
     response <- fetch (fetchCart_request r) ;;
     cart <- lift (json_body response) ;;
     ret cart)
    (log_and_rethrow "Error fetching cart:").

(** *** [updateCart] *)

(** [[k, v]] goes to [[encodeURIComponent(k), encodeURIComponent(v)]]. *)
Definition encode_entry (p : string * value) : completion (string * value) :=
  let* k := encodeURIComponent (VStr (fst p)) in
  let* v := encodeURIComponent (snd p) in
  Normal (k, VStr v).

(** [Array.prototype.map] with a callback that may throw: the elements are
    taken in order and the first throw ends the loop. *)
Fixpoint map_completion {A B : Type} (f : A -> completion B) (l : list A)
  : completion (list B) :=
  match l with
  | [] => Normal []
  | x :: t =>
      let* y := f x in
      let* ys := map_completion f t in
      Normal (y :: ys)
  end.

(** [Object.keys(x).length > 0 && { name: Object.fromEntries(...) }] *)
Definition encoded_field (name : string) (x : value) : completion value :=
  let* keys := Object_keys x in
  if (0 <? List.length keys)%nat then
    let* entries := Object_entries x in
    let* encoded := map_completion encode_entry entries in
    Normal (object_literal [Field name (VObj (Object_fromEntries encoded))])
  else Normal (VBool false).

Definition updatesPayload (updates useLineNumbers : value)
  : completion value :=
  if truthy useLineNumbers then
    let* entries := Object_entries updates in
    Normal (object_literal
              [Field "updates"
                 (VObj (Object_fromEntries
                          (map (fun p => (fst p, snd p)) entries)))])
  else Normal (object_literal [Field "updates" updates]).

Definition updateCart_requestData (updates useLineNumbers note attributes : value)
  : completion value :=
  let useLineNumbers := default_to (VBool false) useLineNumbers in
  let note := default_to (VStr EmptyString) note in
  let attributes := default_to (VObj []) attributes in
  let* payload := updatesPayload updates useLineNumbers in
  let* note_part :=
    if truthy note then
      let* encoded := encodeURIComponent note in
      Normal (object_literal [Field "note" (VStr encoded)])
    else Normal note in
  let* attributes_part := encoded_field "attributes" attributes in
  Normal (object_literal [Spread payload; Spread note_part; Spread attributes_part]).

Definition post_json (path : string) (requestData : value) : async response :=
  r <- routes_root ;;
  fetch (MkRequest (r ++ path) POST JSON_HEADERS (JSON_stringify requestData)).

Definition check_ok (response : response) : async unit :=
  if negb (ok response) then throw (http_error response) else ret tt.

Definition updateCart (updates useLineNumbers note attributes : value)
  : async value :=
  try_catch
    (requestData <- lift (updateCart_requestData updates useLineNumbers note attributes) ;;
     response <- post_json "cart/update.js" requestData ;;
     _ <- check_ok response ;;
     lift (json_body response))
    (log_and_rethrow "Error updating cart:").

(** *** [changeCartItem] *)

Definition changeCartItem_requestData
  (lineOrId quantity useLine properties sellingPlan : value)
  : completion value :=
  let useLine := default_to (VBool false) useLine in
  let properties := default_to (VObj []) properties in
  let sellingPlan := default_to VNull sellingPlan in
  let locator :=
    if truthy useLine then object_literal [Field "line" lineOrId]
    else object_literal [Field "id" lineOrId] in
  let* properties_part := encoded_field "properties" properties in
  let plan_part :=
    and_then sellingPlan (object_literal [Field "selling_plan" sellingPlan]) in
  Normal (object_literal
            [Spread locator; Field "quantity" quantity;
             Spread properties_part; Spread plan_part]).

Definition changeCartItem
  (lineOrId quantity useLine properties sellingPlan : value) : async value :=
  try_catch
    (requestData <- lift (changeCartItem_requestData lineOrId quantity useLine
                            properties sellingPlan) ;;
     response <- post_json "cart/change.js" requestData ;;
     _ <- check_ok response ;;
     lift (json_body response))
    (log_and_rethrow "Error changing cart item:").

(** *** [addToCart] and [clearCart] *)

Definition addToCart_request (w_root : string) (items : value) : request :=
  MkRequest (w_root ++ "cart/add.js") POST JSON_HEADERS
    (JSON_stringify (object_literal [Field "items" items])).

Definition addToCart (items : value) : async value :=
  try_catch
    (r <- routes_root ;;
     response <- fetch (addToCart_request r items) ;;
     _ <- check_ok response ;;
     fetchCart)
    (log_and_rethrow "Error adding item to cart:").

Definition clearCart_request (w_root : string) : request :=
  MkRequest (w_root ++ "cart/clear.js") POST JSON_HEADERS None.

Definition clearCart : async value :=
  try_catch
    (r <- routes_root ;;
     response <- fetch (clearCart_request r) ;;
     _ <- check_ok response ;;
     fetchCart)
    (log_and_rethrow "Error clearing cart:").

(** *** Shipping rates *)

Definition prepareShippingRates_request (w_root : string) : request :=
  MkRequest (w_root ++ "cart/prepare_shipping_rates.json") POST [] None.

Definition prepareShippingRates : async value :=
  try_catch
    (r <- routes_root ;;
     response <- fetch (prepareShippingRates_request r) ;;
     _ <- check_ok response ;;
     text <- lift (text_body response) ;;
     ret (VStr text))
    (log_and_rethrow "Error preparing shipping rates:").

Definition fetchShippingRates_request (w_root : string) : request :=
  MkRequest (w_root ++ "cart/async_shipping_rates.json") GET [] None.

Definition fetchShippingRates : async value :=
  try_catch
    (r <- routes_root ;;
     response <- fetch (fetchShippingRates_request r) ;;
     _ <- check_ok response ;;
     lift (json_body response))
    (log_and_rethrow "Error fetching shipping rates:").

(* ================================================================= *)
(** ** Helpers for the statements about payloads *)

(** Own properties of a payload. *)
Definition props (v : value) : obj :=
  match v with VObj o => o | _ => [] end.

(** The keys of the members of the serialised payload. *)
Definition serialized_keys (v : value) : list string :=
  match to_json v with
  | Some (JObj members) => map fst members
  | _ => []
  end.

(** The types the documentation gives to the optional parameters, an
    argument that is left out included: a string or [null], an object. *)
Definition is_text_or_absent (v : value) : bool :=
  match v with VUndefined | VNull | VStr _ => true | _ => false end.

Definition is_object_or_absent (v : value) : bool :=
  match v with VUndefined | VObj _ => true | _ => false end.

(** The values [JSON.stringify] leaves out of an object. *)
Definition json_drops (v : value) : bool :=
  match v with VUndefined | VFun _ | VSym _ => true | _ => false end.

Definition optional (present : bool) (k : string) (v : value) : obj :=
  if present then [(k, v)] else [].

Definition nonempty {A : Type} (l : list A) : bool :=
  match l with [] => false | _ :: _ => true end.

(** [q] is the pair [p] with key and value percent-encoded. *)
Definition encoded_pair (p q : string * value) : Prop :=
  encodeURIComponent (VStr (fst p)) = Normal (fst q) /\
  exists text, encodeURIComponent (snd p) = Normal text /\ snd q = VStr text.

(** The part of the payload of [updateCart] that comes from the note. *)
Definition note_field (note : value) (field : obj) : Prop :=
  if truthy note
  then exists encoded,
         encodeURIComponent note = Normal encoded /\
         field = [("note", VStr encoded)]
  else field = [].

(** The part of a payload that comes from the attributes or the properties. *)
Definition object_field (name : string) (x : value) (field : obj) : Prop :=
  if nonempty (own_props x)
  then exists encoded,
         map_completion encode_entry (own_props x) = Normal encoded /\
         field = [(name, VObj (Object_fromEntries encoded))]
  else field = [].

(** A value that [encodeURIComponent] accepts: no symbol to turn into a
    string, no unpaired surrogate in the string. *)
Definition encodable (v : value) : bool :=
  match encodeURIComponent v with Normal _ => true | Abrupt _ => false end.


(** The JSON text of the payload of claim C6. *)
Definition updates_1_2_text : string :=
  ("{" ++ quote "updates" ++ ":{" ++ quote "1" ++ ":2," ++ quote "2"
       ++ ":0}}")%string.

(** The JSON text of the payload of claim C7. *)
Definition line_2_quantity_3_text : string :=
  ("{" ++ quote "line" ++ ":2," ++ quote "quantity" ++ ":3}")%string.

(* ================================================================= *)
(** ** Reading percent-encoding back *)

Definition unhex (c : ascii) : N :=
  let n := N_of_ascii c in
  if (n <? 58)%N then (n - 48)%N else (n - 55)%N.

(** Reads an encoded string back, byte by byte. *)
Fixpoint decode_bytes (s : string) : string :=
  match s with
  | EmptyString => EmptyString
  | String c t =>
      if Ascii.eqb c "%" then
        match t with
        | String a (String b t') =>
            String (ascii_of_N (16 * unhex a + unhex b)) (decode_bytes t')
        | _ => s
        end
      else String c (decode_bytes t)
  end.

(* ================================================================= *)
(** ** The operations as one family *)

Inductive operation : Type :=
| FetchCart
| UpdateCart (updates useLineNumbers note attributes : value)
| ChangeCartItem (lineOrId quantity useLine properties sellingPlan : value)
| AddToCart (items : value)
| ClearCart
| PrepareShippingRates
| FetchShippingRates.

Definition run (op : operation) : async value :=
  match op with
  | FetchCart => fetchCart
  | UpdateCart u f n a => updateCart u f n a
  | ChangeCartItem l q f p s => changeCartItem l q f p s
  | AddToCart items => addToCart items
  | ClearCart => clearCart
  | PrepareShippingRates => prepareShippingRates
  | FetchShippingRates => fetchShippingRates
  end.

(** The text each operation prints in its [catch] block. *)
Definition diagnostic (op : operation) : string :=
  match op with
  | FetchCart => "Error fetching cart:"
  | UpdateCart _ _ _ _ => "Error updating cart:"
  | ChangeCartItem _ _ _ _ _ => "Error changing cart item:"
  | AddToCart _ => "Error adding item to cart:"
  | ClearCart => "Error clearing cart:"
  | PrepareShippingRates => "Error preparing shipping rates:"
  | FetchShippingRates => "Error fetching shipping rates:"
  end.

(** The operations whose source tests [response.ok]. *)
Definition checks_status (op : operation) : bool :=
  match op with FetchCart => false | _ => true end.

(** The first request of an operation, when building it does not throw. *)
Definition first_request (op : operation) (r : string) : completion request :=
  match op with
  | FetchCart => Normal (fetchCart_request r)
  | UpdateCart u f n a =>
      let* requestData := updateCart_requestData u f n a in
      Normal (MkRequest (r ++ "cart/update.js")%string POST JSON_HEADERS
                (JSON_stringify requestData))
  | ChangeCartItem l q f p s =>
      let* requestData := changeCartItem_requestData l q f p s in
      Normal (MkRequest (r ++ "cart/change.js")%string POST JSON_HEADERS
                (JSON_stringify requestData))
  | AddToCart items => Normal (addToCart_request r items)
  | ClearCart => Normal (clearCart_request r)
  | PrepareShippingRates => Normal (prepareShippingRates_request r)
  | FetchShippingRates => Normal (fetchShippingRates_request r)
  end.

(** The world once [req] has been sent. *)
Definition after_request (w : World) (req : request) : World :=
  MkWorld (root w) (platform w) (sent w ++ [req]) (console w).

(** The world once a line has been printed. *)
Definition after_log (w : World) (msg : string) (e : error) : World :=
  MkWorld (root w) (platform w) (sent w) (console w ++ [(msg, e)]).

(** [addToCart] and [clearCart]: one request, the test of [response.ok],
    then [fetchCart]. *)
Definition then_fetchCart (msg : string) (req : request) : async value :=
  fun w =>
    let w1 := after_request w req in
    match platform w (sent w1) with
    | Responded r =>
        if ok r then
          match fetchCart w1 with
          | (Normal cart, w2) => (Normal cart, w2)
          | (Abrupt e, w2) => (Abrupt e, after_log w2 msg e)
          end
        else (Abrupt (http_error r), after_log w1 msg (http_error r))
    | Failed e => (Abrupt e, after_log w1 msg e)
    end.

(* ================================================================= *)
(** ** Sample worlds *)

Module Sample.

Definition cart : value :=
  VObj [("item_count", VNum 1); ("note", VNull)].

Definition items : value :=
  VArr [VObj [("id", VNum 794864229); ("quantity", VNum 2)]].

(** A platform that answers every request with status 200 and the cart. *)
Definition ok_response : response :=
  MkResponse true 200 (Normal cart) (Normal "ok").

Definition ok_world : World :=
  MkWorld "/" (fun _ => Responded ok_response) [] [].

(** A platform that answers every request with status 500 and a JSON body
    that describes the error. *)
Definition error_body : value :=
  VObj [("status", VNum 500); ("message", VStr "Internal Server Error")].

Definition error_response : response :=
  MkResponse false 500 (Normal error_body) (Normal "Internal Server Error").

Definition error_world : World :=
  MkWorld "/" (fun _ => Responded error_response) [] [].

(** A platform that accepts the first request and answers every later one
    with status 500. *)
Definition late_error_world : World :=
  MkWorld "/"
    (fun reqs => match reqs with
                 | [_] => Responded ok_response
                 | _ => Responded error_response
                 end) [] [].

(** Arguments of the documented types. *)
Definition updates : value := VObj [("1", VNum 2)].

Definition attributes : obj := [("gift note", VStr "yes & no")].

Definition properties : obj := [("engraving", VStr "A B")].

Definition update_payload : value :=
  VObj [("updates", VObj [("1", VNum 2)]);
        ("note", VStr "gift%20wrap");
        ("attributes", VObj [("gift%20note", VStr "yes%20%26%20no")])].

End Sample.

(* ================================================================= *)
(** ** Families of operations and further sample worlds *)

(** The operations that return the body of their one response read as
    JSON, after testing [response.ok]. *)
Definition returns_json (op : operation) : bool :=
  match op with
  | UpdateCart _ _ _ _ | ChangeCartItem _ _ _ _ _ | FetchShippingRates => true
  | _ => false
  end.

(** The operations that end with [return await fetchCart()]. *)
Definition refetches (op : operation) : bool :=
  match op with
  | AddToCart _ | ClearCart => true
  | _ => false
  end.

(** The paths the source appends to [window.Shopify.routes.root]. *)
Definition endpoints : list string :=
  ["cart.js"; "cart/update.js"; "cart/change.js"; "cart/add.js";
   "cart/clear.js"; "cart/prepare_shipping_rates.json";
   "cart/async_shipping_rates.json"].


Module Scenario.

Definition offline : error := TypeError "Failed to fetch".

(** No request completes. *)
Definition offline_world : World :=
  MkWorld "/" (fun _ => Failed offline) [] [].

(** The first request is accepted, every later one fails in transport. *)
Definition drops_after_first_world : World :=
  MkWorld "/"
    (fun reqs => match reqs with
                 | [_] => Responded Sample.ok_response
                 | _ => Failed offline
                 end) [] [].

Definition not_json : error := MkError "SyntaxError" "Unexpected end of JSON input".

(** Every request is accepted with a plain-text body that is not JSON. *)
Definition text_response : response :=
  MkResponse true 200 (Abrupt not_json) (Normal "started").

Definition text_world : World :=
  MkWorld "/" (fun _ => Responded text_response) [] [].

(** The payload of [updateCart] for a note of [0]. *)
Definition no_note_payload : value :=
  VObj [("updates", VObj [("1", VNum 2)]);
        ("attributes", VObj [("gift%20note", VStr "yes%20%26%20no")])].

(** The payload of [changeCartItem] for a line item key, quantity [0] and a
    selling plan of [0]. *)
Definition remove_by_key_payload : value :=
  VObj [("id", VStr "794864229:abc"); ("quantity", VNum 0)].

(** The one-unit string of the unpaired surrogate D800. *)
Definition lone_high_surrogate : string := surrogate_string 55296.

End Scenario.

(* ================================================================= *)
(** ** Property order: rebuilding an object from its entries *)

Local Open Scope list_scope.

(** The run time on small inputs. *)

Example fromEntries_orders_keys :
  Object_fromEntries
    [("b", VNum 1); ("2", VNum 0); ("a", VNull); ("1", VNum 2); ("b", VNum 7)]
  = [("1", VNum 2); ("2", VNum 0); ("b", VNum 7); ("a", VNull)].
Proof. reflexivity. Qed.

Example leading_zero_is_no_index :
  array_index "01" = None /\ array_index "10" = Some 10%N
  /\ array_index "4294967295" = None.
Proof. repeat split. Qed.

Example encode_reserved_and_marks :
  encodeURIComponent (VStr "a b&c=d/e~(f)") = Normal "a%20b%26c%3Dd%2Fe~(f)"
  /\ encodeURIComponent (VNum (-3)) = Normal "-3"
  /\ encodeURIComponent (VObj []) = Normal "%5Bobject%20Object%5D"
  /\ encodeURIComponent (VSym "id") = Abrupt symbol_to_string.
Proof. repeat split. Qed.

Example stringify_leaves_undefined_out :
  JSON_stringify (VObj [("id", VNum 7); ("quantity", VUndefined)])
  = Some ("{" ++ quote "id" ++ ":7}")%string
  /\ JSON_stringify (VArr [VUndefined; VBool true]) = Some "[null,true]"
  /\ JSON_stringify VUndefined = None.
Proof. repeat split. Qed.

(** Arguments left out take their defaults. *)
Example omitted_arguments (updates lineOrId quantity : value) :
  updateCart_requestData updates VUndefined VUndefined VUndefined
  = updateCart_requestData updates (VBool false) (VStr EmptyString) (VObj [])
  /\ changeCartItem_requestData lineOrId quantity VUndefined VUndefined
       VUndefined
     = changeCartItem_requestData lineOrId quantity (VBool false) (VObj [])
         VNull.
Proof. split; reflexivity. Qed.

Section PropertyOrder.

Lemma key_before_neq k k' : key_before k k' = true -> String.eqb k k' = false.
Proof.
  unfold key_before. destruct (String.eqb k k'); simpl; congruence.
Qed.

Lemma key_before_index k k' n :
  key_before k' k = true -> array_index k = Some n ->
  exists m, array_index k' = Some m /\ (m <? n)%N = true.
Proof.
  unfold key_before. intros H Hk. rewrite Hk in H.
  apply andb_true_iff in H as [_ H].
  destruct (array_index k') as [m|]; [eauto | discriminate].
Qed.

Lemma keys_ordered_app l1 l2 :
  keys_ordered (l1 ++ l2) = true ->
  keys_ordered l1 = true /\ keys_ordered l2 = true /\
  forallb (fun k => forallb (key_before k) l2) l1 = true.
Proof.
  induction l1 as [|k l1 IH]; simpl; intros H.
  - auto.
  - apply andb_true_iff in H as [Hk Hr].
    rewrite forallb_app in Hk. apply andb_true_iff in Hk as [Hk1 Hk2].
    destruct (IH Hr) as (H1 & H2 & H3).
    rewrite Hk1, H1, Hk2, H3. auto.
Qed.

Lemma keys_ordered_snoc l k :
  keys_ordered (l ++ [k]) = true ->
  keys_ordered l = true /\ forallb (fun k' => key_before k' k) l = true.
Proof.
  intros H. apply keys_ordered_app in H as (H1 & _ & H3). split; [exact H1|].
  rewrite forallb_forall in *. intros x Hx. specialize (H3 x Hx).
  simpl in H3. now rewrite andb_true_r in H3.
Qed.

Lemma all_before_fresh k (o : obj) :
  forallb (fun k' => key_before k' k) (map fst o) = true ->
  has_key k o = false.
Proof.
  unfold has_key. induction o as [|[k' v'] t IH]; simpl; intros H; [reflexivity|].
  apply andb_true_iff in H as [Hk Ht].
  rewrite (key_before_neq _ _ Hk), (IH Ht). reflexivity.
Qed.

Lemma obj_insert_index_last n k v (o : obj) :
  array_index k = Some n ->
  forallb (fun k' => key_before k' k) (map fst o) = true ->
  obj_insert_index n k v o = o ++ [(k, v)].
Proof.
  intros Hk. induction o as [|[k' v'] t IH]; simpl; intros H; [reflexivity|].
  apply andb_true_iff in H as [Hb Ht].
  destruct (key_before_index _ _ _ Hb Hk) as (m & Hm & Hlt).
  rewrite Hm, Hlt, (IH Ht). reflexivity.
Qed.

(** A property that is new and belongs after all present ones is appended. *)
Lemma obj_set_last k v (o : obj) :
  wf_obj (o ++ [(k, v)]) = true -> obj_set k v o = o ++ [(k, v)].
Proof.
  unfold wf_obj. rewrite map_app. simpl. intros H.
  apply keys_ordered_snoc in H as [_ H].
  unfold obj_set. rewrite (all_before_fresh _ _ H).
  destruct (array_index k) as [n|] eqn:Hk; [|reflexivity].
  now apply obj_insert_index_last.
Qed.

Lemma wf_obj_prefix (o1 o2 : obj) : wf_obj (o1 ++ o2) = true -> wf_obj o1 = true.
Proof.
  unfold wf_obj. rewrite map_app. intros H.
  now apply keys_ordered_app in H as (H1 & _).
Qed.

Lemma obj_set_all_ordered (ps : list (string * value)) :
  forall o : obj, wf_obj (o ++ ps) = true -> obj_set_all ps o = o ++ ps.
Proof.
  unfold obj_set_all.
  induction ps as [|[k v] ps IH]; simpl; intros o H.
  - now rewrite app_nil_r.
  - replace (o ++ (k, v) :: ps) with ((o ++ [(k, v)]) ++ ps) in *
      by (rewrite <- app_assoc; reflexivity).
    rewrite obj_set_last by (eapply wf_obj_prefix; exact H).
    now apply IH.
Qed.

(** [Object.fromEntries] undoes [Object.entries] on an object. *)
Lemma fromEntries_entries (o : obj) :
  wf_obj o = true -> Object_fromEntries o = o.
Proof.
  intros H. unfold Object_fromEntries. now rewrite obj_set_all_ordered.
Qed.

Lemma map_pair_id (ps : list (string * value)) :
  map (fun p => (fst p, snd p)) ps = ps.
Proof.
  induction ps as [|[k v] ps IH]; simpl; [reflexivity | now rewrite IH].
Qed.

End PropertyOrder.

(* ================================================================= *)
(** ** Percent-encoding: it can be undone, and keeps the order of keys *)

Section PercentEncoding.

Lemma unhex_hex (c : ascii) :
  ascii_of_N (16 * unhex (hex_upper (N_of_ascii c / 16))
              + unhex (hex_upper (N_of_ascii c mod 16))) = c.
Proof.
  destruct c as [[] [] [] [] [] [] [] []]; vm_compute; reflexivity.
Qed.

Lemma unreserved_not_percent (c : ascii) :
  unreserved c = true -> Ascii.eqb c "%" = false.
Proof.
  destruct c as [[] [] [] [] [] [] [] []]; vm_compute; congruence.
Qed.

Lemma digit_unreserved (c : ascii) :
  unreserved c = false -> digit_of c = None.
Proof.
  unfold unreserved, digit_of, is_digit, in_range. intros H.
  repeat (apply orb_false_iff in H as [H ?]).
  cbv zeta. now match goal with H : _ = false |- _ => rewrite H end.
Qed.

Lemma decode_percent (c : ascii) (t : string) :
  decode_bytes (percent c ++ t)%string = String c (decode_bytes t).
Proof.
  change (decode_bytes (percent c ++ t)%string)
    with (String (ascii_of_N (16 * unhex (hex_upper (N_of_ascii c / 16))
                              + unhex (hex_upper (N_of_ascii c mod 16))))
            (decode_bytes t)).
  now rewrite unhex_hex.
Qed.

Lemma decode_encode (s : string) : decode_bytes (encode_bytes s) = s.
Proof.
  induction s as [|c t IH]; [reflexivity|].
  cbn [encode_bytes]. destruct (unreserved c) eqn:Hc.
  - cbn [decode_bytes]. now rewrite (unreserved_not_percent c Hc), IH.
  - now rewrite decode_percent, IH.
Qed.

Lemma encode_bytes_inj (s t : string) :
  encode_bytes s = encode_bytes t -> s = t.
Proof.
  intros H. rewrite <- (decode_encode s), <- (decode_encode t). now f_equal.
Qed.

Lemma encode_bytes_eqb (s t : string) :
  String.eqb (encode_bytes s) (encode_bytes t) = String.eqb s t.
Proof.
  destruct (String.eqb_spec s t) as [->|Hne].
  - apply String.eqb_refl.
  - apply String.eqb_neq. intros H. now apply Hne, encode_bytes_inj.
Qed.

Lemma encode_bytes_empty (s : string) :
  String.eqb (encode_bytes s) EmptyString = String.eqb s EmptyString.
Proof. exact (encode_bytes_eqb s EmptyString). Qed.

Lemma parse_digits_encode (s : string) :
  forall acc, parse_digits acc (encode_bytes s) = parse_digits acc s.
Proof.
  induction s as [|c t IH]; simpl; intros acc; [reflexivity|].
  destruct (unreserved c) eqn:Hc.
  - simpl. destruct (digit_of c); [apply IH | reflexivity].
  - rewrite (digit_unreserved c Hc). reflexivity.
Qed.

(** Encoding a key never turns it into, or away from, an array index. *)
Lemma array_index_encode (k : string) :
  array_index (encode_bytes k) = array_index k.
Proof.
  destruct k as [|c t]; [reflexivity|].
  unfold array_index at 2.
  rewrite <- (parse_digits_encode (String c t) 0%N).
  simpl encode_bytes. destruct (unreserved c) eqn:Hc.
  - unfold array_index. now rewrite encode_bytes_empty.
  - reflexivity.
Qed.

Lemma key_before_encode (k k' : string) :
  key_before (encode_bytes k) (encode_bytes k') = key_before k k'.
Proof.
  unfold key_before. now rewrite encode_bytes_eqb, !array_index_encode.
Qed.

Lemma all_before_encode (k : string) (ks : list string) :
  forallb (key_before (encode_bytes k)) (map encode_bytes ks)
  = forallb (key_before k) ks.
Proof.
  induction ks as [|k' ks IH]; simpl; [reflexivity|].
  now rewrite key_before_encode, IH.
Qed.

Lemma keys_ordered_encode (ks : list string) :
  keys_ordered (map encode_bytes ks) = keys_ordered ks.
Proof.
  induction ks as [|k ks IH]; simpl; [reflexivity|].
  now rewrite all_before_encode, IH.
Qed.

Lemma encodeURIComponent_text (v : value) (encoded : string) :
  encodeURIComponent v = Normal encoded ->
  exists text, ToString v = Normal text /\ encoded = encode_bytes text.
Proof.
  unfold encodeURIComponent. destruct (ToString v) as [text|e]; cbn [cbind];
    [|discriminate].
  destruct (lone_surrogate text); [discriminate|].
  intros [= <-]. now exists text.
Qed.

Lemma encodeURIComponent_string (s encoded : string) :
  encodeURIComponent (VStr s) = Normal encoded -> encoded = encode_bytes s.
Proof.
  intros H. apply encodeURIComponent_text in H as (text & [= <-] & ->).
  reflexivity.
Qed.

Lemma encode_entry_pair (p q : string * value) :
  encode_entry p = Normal q -> encoded_pair p q.
Proof.
  unfold encode_entry, encoded_pair.
  destruct (encodeURIComponent (VStr (fst p))) as [k|e]; cbn [cbind];
    [|discriminate].
  destruct (encodeURIComponent (snd p)) as [text|e]; cbn [cbind];
    [|discriminate].
  intros [= <-]. split; [reflexivity|]. now exists text.
Qed.

(** The encoded entries are the entries one by one, in the same order. *)
Lemma map_completion_Forall2 (o encoded : obj) :
  map_completion encode_entry o = Normal encoded ->
  Forall2 encoded_pair o encoded.
Proof.
  revert encoded. induction o as [|p o IH]; intros encoded; cbn [map_completion].
  - intros [= <-]. constructor.
  - destruct (encode_entry p) as [q|e] eqn:Hq; cbn [cbind]; [|discriminate].
    destruct (map_completion encode_entry o) as [qs|e]; cbn [cbind];
      [|discriminate].
    intros [= <-]. constructor; [now apply encode_entry_pair | now apply IH].
Qed.

Lemma encoded_keys (o encoded : obj) :
  Forall2 encoded_pair o encoded ->
  map fst encoded = map encode_bytes (map fst o).
Proof.
  induction 1 as [|p q o encoded [Hk _] _ IH]; [reflexivity|].
  cbn [map]. rewrite IH. f_equal. now apply encodeURIComponent_string.
Qed.

(** Encoding every entry of an object gives the entries of an object, in
    the same order. *)
Lemma wf_obj_encoded (o encoded : obj) :
  map_completion encode_entry o = Normal encoded ->
  wf_obj encoded = wf_obj o.
Proof.
  intros H. unfold wf_obj.
  rewrite (encoded_keys _ _ (map_completion_Forall2 _ _ H)).
  apply keys_ordered_encode.
Qed.

Lemma fromEntries_encoded (o encoded : obj) :
  wf_obj o = true ->
  map_completion encode_entry o = Normal encoded ->
  Object_fromEntries encoded = encoded.
Proof.
  intros Hwf H. apply fromEntries_entries.
  now rewrite (wf_obj_encoded _ _ H).
Qed.

End PercentEncoding.

(* ================================================================= *)
(** ** The request payloads *)

Ltac resolve_field H :=
  first [ destruct H as (? & _ & ->) | rewrite H in * ].

Section Payloads.

Lemma nonempty_iff {A : Type} (l : list A) : nonempty l = true <-> l <> [].
Proof. destruct l; simpl; split; congruence. Qed.

Lemma to_json_dropped (v : value) : to_json v = None <-> json_drops v = true.
Proof. destruct v; simpl; split; congruence. Qed.

(** A key is in the serialised object exactly when the object has it with a
    value that [JSON.stringify] keeps. *)
Lemma serialized_keys_spec (k : string) (o : obj) :
  In k (serialized_keys (VObj o))
  <-> exists v, In (k, v) o /\ json_drops v = false.
Proof.
  unfold serialized_keys. cbn [to_json]. unfold keep_defined.
  induction o as [|[k' x] t IH]; cbn [flat_map fst snd].
  - simpl. split; [tauto | intros (v & [] & _)].
  - rewrite map_app, in_app_iff, IH. split.
    + intros [H|(v & Hv & Hd)].
      * destruct (to_json x) as [j|] eqn:Hj; simpl in H; [|tauto].
        destruct H as [<-|[]]. exists x. split; [now left|].
        destruct (json_drops x) eqn:Hx; [|reflexivity].
        apply to_json_dropped in Hx. congruence.
      * exists v. split; [now right | exact Hd].
    + intros (v & [[= <- <-]|Hv] & Hd).
      * left. destruct (to_json x) as [j|] eqn:Hj; [now left|].
        apply to_json_dropped in Hj. congruence.
      * right. now exists v.
Qed.

Lemma object_literal_one (k : string) (v : value) :
  object_literal [Field k v] = VObj [(k, v)].
Proof.
  unfold object_literal. simpl. unfold obj_set. simpl.
  destruct (array_index k); reflexivity.
Qed.

Lemma spread_falsy (v : value) (o : obj) :
  truthy v = false -> spread v o = o.
Proof.
  intros H. unfold spread.
  assert (own_props v = []) as ->
    by (destruct v as [| | | |[|c s]| | | |]; try discriminate; reflexivity).
  reflexivity.
Qed.

Lemma truthy_default (d v : value) :
  truthy d = false -> truthy (default_to d v) = truthy v.
Proof. intros H. destruct v; try reflexivity. exact H. Qed.

Lemma default_truthy (d v : value) :
  truthy v = true -> default_to d v = v.
Proof. destruct v; try reflexivity. discriminate. Qed.

Lemma own_props_default (x : value) :
  own_props (default_to (VObj []) x) = own_props x.
Proof. destruct x; reflexivity. Qed.

Lemma encoded_field_shape (name : string) (x p : value) :
  encoded_field name x = Normal p ->
  exists field,
    object_field name x field /\
    p = if nonempty (own_props x) then VObj field else VBool false.
Proof.
  unfold encoded_field, Object_keys, object_field.
  destruct (Object_entries x) as [entries|e] eqn:He; [|discriminate].
  assert (entries = own_props x) as ->
    by (destruct x; cbn [Object_entries] in He; congruence).
  cbn [cbind]. rewrite length_map.
  destruct (own_props x) as [|q l]; cbn [List.length Nat.ltb Nat.leb nonempty].
  - intros [= <-]. now exists [].
  - destruct (map_completion encode_entry (q :: l)) as [encoded|e];
      cbn [cbind]; [|discriminate].
    rewrite object_literal_one. intros [= <-].
    eexists. split; [exists encoded; split; reflexivity | reflexivity].
Qed.

Lemma updatesPayload_shape (updates useLineNumbers p : value) :
  updatesPayload updates useLineNumbers = Normal p ->
  exists X, p = VObj [("updates", X)].
Proof.
  unfold updatesPayload. destruct (truthy useLineNumbers).
  - destruct (Object_entries updates) as [entries|e]; simpl; [|discriminate].
    intros [= <-]. eexists. reflexivity.
  - intros [= <-]. eexists. reflexivity.
Qed.

(** The payload of [updateCart], field by field, for arguments of any
    type. *)
Lemma updateCart_requestData_general
  (updates useLineNumbers note attributes requestData : value) :
  updateCart_requestData updates useLineNumbers note attributes
  = Normal requestData ->
  exists X note_part attributes_part,
    updatesPayload updates (default_to (VBool false) useLineNumbers)
    = Normal (VObj [("updates", X)]) /\
    note_field note note_part /\
    object_field "attributes" attributes attributes_part /\
    requestData = VObj (("updates", X) :: note_part ++ attributes_part).
Proof.
  unfold updateCart_requestData.
  destruct (updatesPayload updates (default_to (VBool false) useLineNumbers))
    as [p|e] eqn:Hp; [|discriminate].
  destruct (updatesPayload_shape _ _ _ Hp) as [X ->]. cbn [cbind].
  unfold note_field, object_field.
  rewrite (truthy_default (VStr EmptyString) note eq_refl).
  destruct (truthy note) eqn:Ht.
  - rewrite (default_truthy _ _ Ht).
    destruct (encodeURIComponent note) as [encoded|e]; cbn [cbind];
      [|discriminate].
    destruct (encoded_field "attributes" (default_to (VObj []) attributes))
      as [q|e] eqn:Hq; cbn [cbind]; [|discriminate].
    apply encoded_field_shape in Hq as (field & Hf & ->).
    unfold object_field in Hf. rewrite own_props_default in *.
    intros [= <-]. exists X, [("note", VStr encoded)], field.
    split; [reflexivity|]. split; [now exists encoded|]. split; [exact Hf|].
    rewrite object_literal_one.
    destruct (nonempty (own_props attributes));
      [destruct Hf as (es & _ & ->) | subst field]; reflexivity.
  - cbn [cbind].
    destruct (encoded_field "attributes" (default_to (VObj []) attributes))
      as [q|e] eqn:Hq; cbn [cbind]; [|discriminate].
    apply encoded_field_shape in Hq as (field & Hf & ->).
    unfold object_field in Hf. rewrite own_props_default in *.
    intros [= <-]. exists X, [], field.
    split; [reflexivity|]. split; [reflexivity|]. split; [exact Hf|].
    assert (Hn : truthy (default_to (VStr EmptyString) note) = false)
      by now rewrite (truthy_default (VStr EmptyString) note eq_refl).
    unfold object_literal. cbn [fold_left add_part].
    rewrite (spread_falsy _ _ Hn).
    destruct (nonempty (own_props attributes));
      [destruct Hf as (es & _ & ->) | subst field]; reflexivity.
Qed.

(** The payload of [changeCartItem], field by field, for arguments of any
    type. *)
Lemma changeCartItem_requestData_general
  (lineOrId quantity useLine properties sellingPlan changeData : value) :
  changeCartItem_requestData lineOrId quantity useLine properties sellingPlan
  = Normal changeData ->
  exists properties_part,
    object_field "properties" properties properties_part /\
    changeData =
    VObj ((if truthy useLine then "line" else "id", lineOrId)
            :: ("quantity", quantity)
            :: properties_part
            ++ optional (truthy sellingPlan) "selling_plan" sellingPlan).
Proof.
  unfold changeCartItem_requestData.
  destruct (encoded_field "properties" (default_to (VObj []) properties))
    as [q|e] eqn:Hq; [|discriminate].
  apply encoded_field_shape in Hq as (field & Hf & ->).
  unfold object_field in Hf. rewrite own_props_default in *.
  cbn [cbind]. intros [= <-]. exists field. split; [exact Hf|].
  rewrite (truthy_default (VBool false) useLine eq_refl).
  rewrite !object_literal_one. unfold and_then.
  rewrite (truthy_default VNull sellingPlan eq_refl).
  destruct (truthy sellingPlan) eqn:Hs.
  - rewrite (default_truthy _ _ Hs).
    destruct (truthy useLine); destruct (nonempty (own_props properties));
      [destruct Hf as (es & _ & ->) | subst field
      |destruct Hf as (es & _ & ->) | subst field]; reflexivity.
  - assert (Hn : truthy (default_to VNull sellingPlan) = false)
      by now rewrite (truthy_default VNull sellingPlan eq_refl).
    unfold object_literal. cbn [fold_left add_part].
    rewrite (spread_falsy _ _ Hn).
    destruct (truthy useLine); destruct (nonempty (own_props properties));
      [destruct Hf as (es & _ & ->) | subst field
      |destruct Hf as (es & _ & ->) | subst field]; reflexivity.
Qed.

Lemma updateCart_serialized_keys
  (X note attributes : value) (note_part attributes_part : obj) :
  note_field note note_part ->
  object_field "attributes" attributes attributes_part ->
  (In "note"
     (serialized_keys (VObj (("updates", X) :: note_part ++ attributes_part)))
   <-> truthy note = true) /\
  (In "attributes"
     (serialized_keys (VObj (("updates", X) :: note_part ++ attributes_part)))
   <-> nonempty (own_props attributes) = true).
Proof.
  unfold note_field, object_field. intros HN HA.
  rewrite !serialized_keys_spec.
  destruct (truthy note); destruct (nonempty (own_props attributes));
    resolve_field HN; resolve_field HA; cbn [app];
    (split;
     (split;
      [ intros (v & Hin & Hd); simpl in Hin; intuition congruence
      | intros H;
        first [ discriminate H
              | eexists; split; [ simpl; auto 6 | reflexivity ] ] ])).
Qed.

Lemma changeCartItem_serialized_keys
  (locator : string) (lineOrId quantity properties sellingPlan : value)
  (properties_part : obj) :
  locator = "line" \/ locator = "id" ->
  object_field "properties" properties properties_part ->
  (In "properties"
     (serialized_keys
        (VObj ((locator, lineOrId) :: ("quantity", quantity)
                 :: properties_part
                 ++ optional (truthy sellingPlan) "selling_plan" sellingPlan)))
   <-> nonempty (own_props properties) = true) /\
  (In "selling_plan"
     (serialized_keys
        (VObj ((locator, lineOrId) :: ("quantity", quantity)
                 :: properties_part
                 ++ optional (truthy sellingPlan) "selling_plan" sellingPlan)))
   <-> truthy sellingPlan = true /\ json_drops sellingPlan = false).
Proof.
  unfold object_field. intros Hl HP.
  rewrite !serialized_keys_spec.
  destruct (truthy sellingPlan); destruct (nonempty (own_props properties));
    resolve_field HP; cbn [app optional];
    (split;
     (split;
      [ intros (v & Hin & Hd); simpl in Hin;
        destruct Hl; subst locator; intuition congruence
      | intros H;
        first [ discriminate H
              | destruct H; discriminate
              | eexists; split; [ simpl; auto 6 | tauto || reflexivity ] ] ])).
Qed.

Lemma text_truthy (v : value) :
  is_text_or_absent v = true ->
  (truthy v = true
   <-> v <> VUndefined /\ v <> VNull /\ v <> VStr EmptyString).
Proof.
  destruct v as [| | | |[|c s]| | | |]; try discriminate; intros _; simpl;
    split; try discriminate; try tauto; intros _; repeat split; discriminate.
Qed.

Lemma object_nonempty (v : value) :
  is_object_or_absent v = true ->
  (nonempty (own_props v) = true <-> v <> VUndefined /\ v <> VObj []).
Proof.
  destruct v as [| | | | | |[|a o]| |]; try discriminate; intros _; simpl;
    split; try discriminate; try tauto; intros _; split; discriminate.
Qed.

End Payloads.

(* ================================================================= *)
(** ** Claims about the payloads *)

(** C3. In every call of [updateCart] and [changeCartItem] with optional
    arguments of the documented types, left out or given (a note that is a
    string or [null], attributes and properties that are objects, a selling
    plan that is a string or [null]), each optional field is a key of the
    serialised payload exactly when it is given, non-empty and non-null.  A
    field that is absent leaves no key behind: with every optional argument
    left out the payloads are [{updates}] and [{id, quantity}]. *)
Theorem optional_fields_present_iff_nonempty
  (updates useLineNumbers note attributes requestData : value)
  (lineOrId quantity useLine properties sellingPlan changeData : value) :
  is_text_or_absent note = true ->
  is_object_or_absent attributes = true ->
  is_object_or_absent properties = true ->
  is_text_or_absent sellingPlan = true ->
  updateCart_requestData updates useLineNumbers note attributes
  = Normal requestData ->
  changeCartItem_requestData lineOrId quantity useLine properties sellingPlan
  = Normal changeData ->
  (In "note" (serialized_keys requestData)
   <-> note <> VUndefined /\ note <> VNull /\ note <> VStr EmptyString) /\
  (In "attributes" (serialized_keys requestData)
   <-> attributes <> VUndefined /\ attributes <> VObj []) /\
  (In "properties" (serialized_keys changeData)
   <-> properties <> VUndefined /\ properties <> VObj []) /\
  (In "selling_plan" (serialized_keys changeData)
   <-> sellingPlan <> VUndefined /\ sellingPlan <> VNull
       /\ sellingPlan <> VStr EmptyString) /\
  updateCart_requestData updates VUndefined VUndefined VUndefined
  = Normal (VObj [("updates", updates)]) /\
  changeCartItem_requestData lineOrId quantity VUndefined VUndefined VUndefined
  = Normal (VObj [("id", lineOrId); ("quantity", quantity)]).
Proof.
  intros Hn Ha Hp Hs Hrd Hcd.
  destruct (updateCart_requestData_general _ _ _ _ _ Hrd)
    as (X & N & A & _ & HN & HA & ->).
  destruct (changeCartItem_requestData_general _ _ _ _ _ _ Hcd)
    as (P & HP & ->).
  destruct (updateCart_serialized_keys X _ _ _ _ HN HA) as [Knote Kattr].
  assert (Hl : (if truthy useLine then "line" else "id") = "line"
               \/ (if truthy useLine then "line" else "id") = "id")
    by (destruct (truthy useLine); auto).
  destruct (changeCartItem_serialized_keys _ lineOrId quantity _ sellingPlan
              _ Hl HP) as [Kprop Kplan].
  split; [|split; [|split; [|split; [|split]]]].
  - rewrite Knote. now apply text_truthy.
  - rewrite Kattr. now apply object_nonempty.
  - rewrite Kprop. now apply object_nonempty.
  - rewrite Kplan, (text_truthy _ Hs).
    destruct sellingPlan; try discriminate; simpl; tauto.
  - reflexivity.
  - reflexivity.
Qed.

(** C5. The note, every attribute pair and every line-property pair reach the
    payload percent-encoded: the note as [encodeURIComponent(note)], each pair
    [(k, v)] as [(encodeURIComponent(k), encodeURIComponent(v))], the pairs in
    the order of the object they come from.  With the note "gift wrap" the
    payload holds "gift%20wrap"; with the empty note it has no [note] key. *)
Theorem payload_values_percent_encoded
  (updates useLineNumbers : value) (note : string) (attributes : obj)
  (requestData : value)
  (lineOrId quantity useLine : value) (properties : obj)
  (sellingPlan changeData : value) :
  wf_obj attributes = true ->
  wf_obj properties = true ->
  updateCart_requestData updates useLineNumbers (VStr note) (VObj attributes)
  = Normal requestData ->
  changeCartItem_requestData lineOrId quantity useLine (VObj properties)
    sellingPlan = Normal changeData ->
  (note <> EmptyString ->
   exists encoded,
     encodeURIComponent (VStr note) = Normal encoded /\
     lookup "note" (props requestData) = Some (VStr encoded)) /\
  (attributes <> [] ->
   exists encoded,
     Forall2 encoded_pair attributes encoded /\
     lookup "attributes" (props requestData) = Some (VObj encoded)) /\
  (properties <> [] ->
   exists encoded,
     Forall2 encoded_pair properties encoded /\
     lookup "properties" (props changeData) = Some (VObj encoded)) /\
  (note = "gift wrap" ->
   lookup "note" (props requestData) = Some (VStr "gift%20wrap")) /\
  (note = EmptyString ->
   lookup "note" (props requestData) = None /\
   ~ In "note" (serialized_keys requestData)).
Proof.
  intros Ha Hp Hrd Hcd.
  destruct (updateCart_requestData_general _ _ _ _ _ Hrd)
    as (X & N & A & _ & HN & HA & ->).
  destruct (changeCartItem_requestData_general _ _ _ _ _ _ Hcd)
    as (P & HP & ->).
  unfold note_field in HN. unfold object_field in HA, HP.
  cbn [own_props] in HA, HP.
  split; [|split; [|split; [|split]]].
  - intros Hne. destruct note as [|c s]; [congruence|].
    cbn [truthy negb String.eqb] in HN. destruct HN as (e & He & ->).
    exists e. split; [exact He | reflexivity].
  - intros Hne. apply nonempty_iff in Hne. rewrite Hne in HA.
    destruct HA as (es & Hes & ->).
    rewrite (fromEntries_encoded _ _ Ha Hes).
    exists es. split; [now apply map_completion_Forall2|].
    destruct (truthy (VStr note)); [destruct HN as (e & _ & ->) | subst N];
      reflexivity.
  - intros Hne. apply nonempty_iff in Hne. rewrite Hne in HP.
    destruct HP as (es & Hes & ->).
    rewrite (fromEntries_encoded _ _ Hp Hes).
    exists es. split; [now apply map_completion_Forall2|].
    destruct (truthy useLine); reflexivity.
  - intros ->. cbn [truthy negb String.eqb] in HN.
    destruct HN as (e & He & ->). injection He as <-. reflexivity.
  - intros ->. cbn [truthy negb String.eqb] in HN. subst N.
    split.
    + destruct (nonempty attributes);
        [destruct HA as (es & _ & ->) | subst A]; reflexivity.
    + rewrite serialized_keys_spec. intros (v & Hin & _).
      destruct (nonempty attributes);
        [destruct HA as (es & _ & ->) | subst A];
        simpl in Hin; intuition congruence.
Qed.

(** C6. [updateCart({1: 2, 2: 0}, true, '', {})] builds exactly the payload
    [{updates: {1: 2, 2: 0}}]: no [note] key, no [attributes] key; that
    payload, as JSON text, is the body of the one request it posts to
    [cart/update.js]. *)
Theorem updateCart_line_numbers_payload :
  let updates := VObj [("1", VNum 2); ("2", VNum 0)] in
  let requestData := VObj [("updates", VObj [("1", VNum 2); ("2", VNum 0)])] in
  updateCart_requestData updates (VBool true) (VStr EmptyString) (VObj [])
  = Normal requestData /\
  lookup "note" (props requestData) = None /\
  lookup "attributes" (props requestData) = None /\
  serialized_keys requestData = ["updates"] /\
  JSON_stringify requestData = Some updates_1_2_text /\
  forall w,
    sent (snd (updateCart updates (VBool true) (VStr EmptyString) (VObj []) w))
    = sent w ++ [MkRequest (root w ++ "cart/update.js")%string POST
                   JSON_HEADERS (Some updates_1_2_text)].
Proof.
  cbv zeta. repeat apply conj; try reflexivity.
  intros w. unfold updateCart, try_catch, bind, lift, post_json, routes_root,
    fetch, check_ok, log_and_rethrow, bind, console_error, throw, ret.
  change (updateCart_requestData (VObj [("1", VNum 2); ("2", VNum 0)])
            (VBool true) (VStr EmptyString) (VObj []))
    with (Normal (VObj [("updates", VObj [("1", VNum 2); ("2", VNum 0)])])).
  change (JSON_stringify
            (VObj [("updates", VObj [("1", VNum 2); ("2", VNum 0)])]))
    with (Some updates_1_2_text).
  cbv beta iota. simpl root. simpl sent.
  destruct (platform w _) as [r|e]; [|reflexivity].
  destruct (ok r); simpl; [|reflexivity].
  destruct (json_body r); reflexivity.
Qed.

(** C7. [changeCartItem(2, 3, true, {}, null)] builds exactly the payload
    [{line: 2, quantity: 3}]: no [id], no [properties], no [selling_plan];
    that payload, as JSON text, is the body of the one request it posts to
    [cart/change.js]. *)
Theorem changeCartItem_line_payload :
  let requestData := VObj [("line", VNum 2); ("quantity", VNum 3)] in
  changeCartItem_requestData (VNum 2) (VNum 3) (VBool true) (VObj []) VNull
  = Normal requestData /\
  lookup "id" (props requestData) = None /\
  lookup "properties" (props requestData) = None /\
  lookup "selling_plan" (props requestData) = None /\
  serialized_keys requestData = ["line"; "quantity"] /\
  JSON_stringify requestData = Some line_2_quantity_3_text /\
  forall w,
    sent (snd (changeCartItem (VNum 2) (VNum 3) (VBool true) (VObj []) VNull w))
    = sent w ++ [MkRequest (root w ++ "cart/change.js")%string POST
                   JSON_HEADERS (Some line_2_quantity_3_text)].
Proof.
  cbv zeta. repeat apply conj; try reflexivity.
  intros w. unfold changeCartItem, try_catch, bind, lift, post_json,
    routes_root, fetch, check_ok, log_and_rethrow, bind, console_error,
    throw, ret.
  change (changeCartItem_requestData (VNum 2) (VNum 3) (VBool true) (VObj [])
            VNull)
    with (Normal (VObj [("line", VNum 2); ("quantity", VNum 3)])).
  change (JSON_stringify (VObj [("line", VNum 2); ("quantity", VNum 3)]))
    with (Some line_2_quantity_3_text).
  cbv beta iota. simpl root. simpl sent.
  destruct (platform w _) as [r|e]; [|reflexivity].
  destruct (ok r); simpl; [|reflexivity].
  destruct (json_body r); reflexivity.
Qed.

(** C10. For an [updates] object, the [useLineNumbers] flag changes nothing:
    the [updates] payload, the whole request payload and the run of
    [updateCart] in any world are the same with [true] and with [false]. *)
Theorem useLineNumbers_has_no_effect
  (updates : obj) (note attributes : value) :
  wf_obj updates = true ->
  updatesPayload (VObj updates) (VBool true)
  = updatesPayload (VObj updates) (VBool false) /\
  updateCart_requestData (VObj updates) (VBool true) note attributes
  = updateCart_requestData (VObj updates) (VBool false) note attributes /\
  forall w,
    updateCart (VObj updates) (VBool true) note attributes w
    = updateCart (VObj updates) (VBool false) note attributes w.
Proof.
  intros Hwf.
  assert (H1 : updatesPayload (VObj updates) (VBool true)
               = updatesPayload (VObj updates) (VBool false)).
  { unfold updatesPayload. simpl.
    now rewrite map_pair_id, (fromEntries_entries updates Hwf). }
  assert (H2 : updateCart_requestData (VObj updates) (VBool true) note attributes
               = updateCart_requestData (VObj updates) (VBool false) note
                   attributes).
  { unfold updateCart_requestData. cbn [default_to]. now rewrite H1. }
  repeat split; [exact H1 | exact H2 |].
  intros w. unfold updateCart. now rewrite H2.
Qed.

(** Outside objects the flag does matter: for the array [[2, 0]] the payload
    keeps the array without the flag and holds the object [{0: 2, 1: 0}]
    with it. *)
Remark useLineNumbers_on_an_array :
  updatesPayload (VArr [VNum 2; VNum 0]) (VBool false)
  = Normal (VObj [("updates", VArr [VNum 2; VNum 0])]) /\
  updatesPayload (VArr [VNum 2; VNum 0]) (VBool true)
  = Normal (VObj [("updates", VObj [("0", VNum 2); ("1", VNum 0)])]).
Proof. split; reflexivity. Qed.

(* ================================================================= *)
(** ** Running the operations *)

Ltac unfold_async :=
  unfold updateCart, changeCartItem, addToCart, clearCart,
    prepareShippingRates, fetchShippingRates, fetchCart, post_json, check_ok,
    log_and_rethrow, try_catch, bind, lift, routes_root, fetch,
    console_error, throw, ret in *;
  cbn [root platform sent console fst snd] in *.

(** Case analysis on everything the platform may answer during a run. *)
Ltac platform_cases w :=
  repeat match goal with
    | |- context [platform w ?l] =>
        let r := fresh "r" in let e1 := fresh "e" in
        destruct (platform w l) as [r|e1];
        cbn [root platform sent console fst snd]
    | |- context [negb (ok ?r)] =>
        destruct (ok r); cbn [negb root platform sent console fst snd]
    | |- context [json_body ?r] =>
        destruct (json_body r); cbn [root platform sent console fst snd]
    | |- context [text_body ?r] =>
        destruct (text_body r); cbn [root platform sent console fst snd]
    end.

Ltac payload_cases :=
  try (destruct (updateCart_requestData _ _ _ _) as [?rd|?e0]);
  try (destruct (changeCartItem_requestData _ _ _ _ _) as [?rd|?e0]);
  cbn [cbind root platform sent console fst snd].

Section Runs.

(** [fetchCart]: the outcome is that of reading the body as JSON, whatever
    the status. *)
Lemma fetchCart_run (w : World) :
  fetchCart w =
  let w1 := after_request w (fetchCart_request (root w)) in
  match platform w (sent w1) with
  | Responded r =>
      match json_body r with
      | Normal cart => (Normal cart, w1)
      | Abrupt e => (Abrupt e, after_log w1 "Error fetching cart:" e)
      end
  | Failed e => (Abrupt e, after_log w1 "Error fetching cart:" e)
  end.
Proof.
  unfold_async. unfold after_request, after_log. simpl.
  destruct (platform w _) as [r|e]; [|reflexivity].
  destruct (json_body r); reflexivity.
Qed.

(** X5. An operation that tests [response.ok] rejects a response that is not
    [ok] with an error naming the status, after that one request. *)
Lemma status_checked_operations_reject
  (op : operation) (w : World) (req : request) (r : response) :
  checks_status op = true ->
  first_request op (root w) = Normal req ->
  platform w (sent w ++ [req]) = Responded r ->
  ok r = false ->
  run op w =
  (Abrupt (http_error r),
   after_log (after_request w req) (diagnostic op) (http_error r)).
Proof.
  intros Hc. unfold after_log, after_request.
  destruct op; try discriminate; cbn [first_request run diagnostic];
    unfold_async; payload_cases; intros Hreq Hp Hok.
  all: try discriminate.
  all: injection Hreq as <-;
    cbn [root platform sent console]; rewrite Hp, Hok; reflexivity.
Qed.

(** X6. A request that fails in transport makes the operation reject with
    that very error, after printing it. *)
Lemma transport_failure_is_rethrown
  (op : operation) (w : World) (req : request) (e : error) :
  first_request op (root w) = Normal req ->
  platform w (sent w ++ [req]) = Failed e ->
  run op w =
  (Abrupt e, after_log (after_request w req) (diagnostic op) e).
Proof.
  unfold after_log, after_request.
  destruct op; cbn [first_request run diagnostic];
    unfold_async; payload_cases; intros Hreq Hp.
  all: try discriminate.
  all: injection Hreq as <-;
    cbn [root platform sent console]; rewrite Hp; reflexivity.
Qed.

(** X7. Whenever an operation rejects, the last line on the console is its
    own diagnostic with the error it rejects with. *)
Lemma rejection_is_logged (op : operation) (w : World) (e : error) :
  fst (run op w) = Abrupt e ->
  exists lines,
    console (snd (run op w)) = console w ++ lines ++ [(diagnostic op, e)].
Proof.
  destruct op; cbn [run diagnostic]; unfold_async; payload_cases;
    platform_cases w; intros H.
  all: try discriminate.
  all: injection H as ->;
    first [ now exists [] | eexists [_]; rewrite <- app_assoc; reflexivity ].
Qed.

(** X8. An operation that resolves has printed nothing. *)
Lemma resolution_prints_nothing (op : operation) (w : World) (v : value) :
  fst (run op w) = Normal v -> console (snd (run op w)) = console w.
Proof.
  destruct op; cbn [run]; unfold_async; payload_cases; platform_cases w;
    intros H; try discriminate; reflexivity.
Qed.

(** X9. No retry: an operation sends at most two requests, never the same
    one twice. *)
Lemma no_request_is_repeated (op : operation) (w : World) :
  exists reqs,
    sent (snd (run op w)) = sent w ++ reqs /\
    (List.length reqs <= 2)%nat /\ NoDup reqs.
Proof.
  destruct op; cbn [run]; unfold_async; payload_cases; platform_cases w;
    first
      [ exists []; split; [now rewrite app_nil_r|];
        split; [simpl; lia | constructor]
      | eexists [_]; split; [reflexivity|];
        split; [simpl; lia | repeat constructor; simpl; tauto]
      | eexists [_; _]; split; [now rewrite <- app_assoc|];
        split; [simpl; lia |];
        repeat constructor; simpl; try tauto;
        intros [H|[]]; discriminate H ].
Qed.

Lemma addToCart_run (items : value) (w : World) :
  addToCart items w
  = then_fetchCart "Error adding item to cart:"
      (addToCart_request (root w) items) w.
Proof.
  unfold addToCart, then_fetchCart, try_catch, bind, routes_root, fetch,
    check_ok, log_and_rethrow, bind, console_error, throw, ret,
    after_request, after_log.
  cbn [root platform sent console].
  destruct (platform w _) as [r|e]; [|reflexivity].
  destruct (ok r); cbn [negb]; [|reflexivity].
  destruct (fetchCart _) as [[cart|e] w2]; reflexivity.
Qed.

Lemma clearCart_run (w : World) :
  clearCart w
  = then_fetchCart "Error clearing cart:" (clearCart_request (root w)) w.
Proof.
  unfold clearCart, then_fetchCart, try_catch, bind, routes_root, fetch,
    check_ok, log_and_rethrow, bind, console_error, throw, ret,
    after_request, after_log.
  cbn [root platform sent console].
  destruct (platform w _) as [r|e]; [|reflexivity].
  destruct (ok r); cbn [negb]; [|reflexivity].
  destruct (fetchCart _) as [[cart|e] w2]; reflexivity.
Qed.

Lemma then_fetchCart_ok (msg : string) (req : request) (w : World)
  (r : response) :
  platform w (sent w ++ [req]) = Responded r ->
  ok r = true ->
  fst (then_fetchCart msg req w) = fst (fetchCart (after_request w req)) /\
  sent (snd (then_fetchCart msg req w))
  = sent w ++ [req; fetchCart_request (root w)].
Proof.
  intros Hp Hok. unfold then_fetchCart. cbv zeta.
  rewrite fetchCart_run. cbv zeta. unfold after_request, after_log.
  cbn [root platform sent console]. rewrite Hp, Hok.
  rewrite <- app_assoc. simpl app.
  destruct (platform w (sent w ++ [req; fetchCart_request (root w)]))
    as [r2|e]; [destruct (json_body r2)|]; split; reflexivity.
Qed.

End Runs.

(* ================================================================= *)
(** ** Claims about requests, results and errors *)

(** C1, at an input where the source departs from it.  The platform answers
    [GET cart.js] with status 500 and a JSON body: [fetchCart] resolves with
    that body and prints nothing, where [fetchShippingRates], which tests
    [response.ok], rejects the same answer with the error naming status
    500. *)
Theorem fetchCart_resolves_on_status_500 :
  ok Sample.error_response = false /\
  status Sample.error_response = 500 /\
  fetchCart Sample.error_world
  = (Normal Sample.error_body,
     after_request Sample.error_world (fetchCart_request "/")) /\
  fst (fetchShippingRates Sample.error_world)
  = Abrupt (MkError "Error" "HTTP error! status: 500").
Proof. repeat split. Qed.

(** C2. When the add request succeeds, [addToCart] sends exactly two
    requests, first the [POST] of [{items}] to [cart/add.js], then the [GET]
    of [cart.js]; what it returns is what [fetchCart] returns after the add,
    the body read from the second response: the first response's body plays
    no part. *)
Theorem addToCart_posts_then_fetches
  (items : value) (w : World) (r : response) :
  platform w (sent w ++ [addToCart_request (root w) items]) = Responded r ->
  ok r = true ->
  let add := addToCart_request (root w) items in
  let get := fetchCart_request (root w) in
  add = MkRequest (root w ++ "cart/add.js")%string POST JSON_HEADERS
          (JSON_stringify (VObj [("items", items)])) /\
  get = MkRequest (root w ++ "cart.js")%string GET [] None /\
  sent (snd (addToCart items w)) = sent w ++ [add; get] /\
  fst (addToCart items w) = fst (fetchCart (after_request w add)) /\
  fst (addToCart items w)
  = match platform w (sent w ++ [add; get]) with
    | Responded cart_response => json_body cart_response
    | Failed e => Abrupt e
    end.
Proof.
  intros Hp Hok add get. subst add get.
  split; [reflexivity|]. split; [reflexivity|].
  rewrite addToCart_run.
  destruct (then_fetchCart_ok "Error adding item to cart:" _ w r Hp Hok)
    as [Hres Hsent].
  split; [exact Hsent|]. split; [exact Hres|].
  rewrite Hres, fetchCart_run. cbv zeta. unfold after_request, after_log.
  cbn [root platform sent console]. rewrite <- app_assoc. simpl app.
  destruct (platform w (sent w ++ [addToCart_request (root w) items;
                                   fetchCart_request (root w)]))
    as [r2|e]; [destruct (json_body r2)|]; reflexivity.
Qed.

(** C4, at an input where the source departs from it.  On a response with
    status 500 and a JSON body, [fetchCart] catches nothing: it resolves with
    the body and the console stays empty.  [addToCart] inherits this when the
    add succeeds and the re-fetch is answered with status 500. *)
Theorem non_success_status_goes_unreported :
  fst (fetchCart Sample.error_world) = Normal Sample.error_body /\
  console (snd (fetchCart Sample.error_world)) = [] /\
  fst (addToCart Sample.items Sample.late_error_world)
  = Normal Sample.error_body /\
  console (snd (addToCart Sample.items Sample.late_error_world)) = [].
Proof. repeat split. Qed.

(** C8. When the clear request succeeds, [clearCart] returns exactly what a
    separate [fetchCart] returns when run right after that request, against
    the same platform. *)
Theorem clearCart_returns_what_fetchCart_returns (w : World) (r : response) :
  platform w (sent w ++ [clearCart_request (root w)]) = Responded r ->
  ok r = true ->
  fst (clearCart w)
  = fst (fetchCart (after_request w (clearCart_request (root w)))).
Proof.
  intros Hp Hok. rewrite clearCart_run.
  exact (proj1 (then_fetchCart_ok "Error clearing cart:" _ w r Hp Hok)).
Qed.

(** C9. [fetchCart] never looks at the status.  Its result is the outcome of
    reading the response body as JSON: a body that parses is returned
    whatever [ok] and [status] say, and [fetchCart] rejects exactly when the
    request fails in transport or the body does not parse. *)
Theorem fetchCart_never_inspects_status (w : World) :
  let outcome := platform w (sent w ++ [fetchCart_request (root w)]) in
  fst (fetchCart w)
  = match outcome with
    | Responded r => json_body r
    | Failed e => Abrupt e
    end /\
  (forall r cart,
     outcome = Responded r -> json_body r = Normal cart ->
     fst (fetchCart w) = Normal cart) /\
  (forall e,
     fst (fetchCart w) = Abrupt e <->
     outcome = Failed e \/
     exists r, outcome = Responded r /\ json_body r = Abrupt e).
Proof.
  cbv zeta. rewrite fetchCart_run. cbv zeta. unfold after_request.
  cbn [sent]. destruct (platform w _) as [r|e0].
  - destruct (json_body r) as [cart|e0] eqn:Hj; cbn [fst]; repeat split.
    + intros r' cart' [= <-]. now rewrite Hj.
    + discriminate.
    + intros [H|(r' & [= <-] & H)]; [discriminate | congruence].
    + intros r' cart' [= <-]. now rewrite Hj.
    + intros [= <-]. right. now exists r.
    + intros [H|(r' & [= <-] & H)]; [discriminate | congruence].
  - cbn [fst]. repeat split.
    + discriminate.
    + intros [= <-]. now left.
    + intros [[= <-]|(r' & H & _)]; [reflexivity | discriminate].
Qed.

(* ================================================================= *)
(** ** The theorems at sample inputs *)

Lemma optional_fields_present_iff_nonempty_witness :
  is_text_or_absent (VStr "gift wrap") = true /\
  is_object_or_absent VUndefined = true /\
  is_object_or_absent (VObj Sample.properties) = true /\
  is_text_or_absent VUndefined = true /\
  updateCart_requestData Sample.updates VUndefined (VStr "gift wrap")
    VUndefined
  = Normal (VObj [("updates", Sample.updates); ("note", VStr "gift%20wrap")]) /\
  changeCartItem_requestData (VNum 2) (VNum 3) (VBool true)
    (VObj Sample.properties) VUndefined
  = Normal (VObj [("line", VNum 2); ("quantity", VNum 3);
                  ("properties", VObj [("engraving", VStr "A%20B")])]) /\
  (In "note"
     (serialized_keys
        (VObj [("updates", Sample.updates); ("note", VStr "gift%20wrap")]))
   <-> VStr "gift wrap" <> VUndefined /\ VStr "gift wrap" <> VNull
       /\ VStr "gift wrap" <> VStr EmptyString) /\
  (In "attributes"
     (serialized_keys
        (VObj [("updates", Sample.updates); ("note", VStr "gift%20wrap")]))
   <-> VUndefined <> VUndefined /\ VUndefined <> VObj []).
Proof.
  pose proof (optional_fields_present_iff_nonempty
                Sample.updates VUndefined (VStr "gift wrap") VUndefined
                (VObj [("updates", Sample.updates);
                       ("note", VStr "gift%20wrap")])
                (VNum 2) (VNum 3) (VBool true) (VObj Sample.properties)
                VUndefined
                (VObj [("line", VNum 2); ("quantity", VNum 3);
                       ("properties", VObj [("engraving", VStr "A%20B")])])
                eq_refl eq_refl eq_refl eq_refl eq_refl eq_refl) as H.
  exact (conj eq_refl (conj eq_refl (conj eq_refl (conj eq_refl
           (conj eq_refl (conj eq_refl
              (conj (proj1 H) (proj1 (proj2 H))))))))).
Defined.

Lemma payload_values_percent_encoded_witness :
  wf_obj Sample.attributes = true /\
  wf_obj Sample.properties = true /\
  updateCart_requestData Sample.updates (VBool false) (VStr "gift wrap")
    (VObj Sample.attributes) = Normal Sample.update_payload /\
  changeCartItem_requestData (VNum 2) (VNum 3) (VBool true)
    (VObj Sample.properties) VNull
  = Normal (VObj [("line", VNum 2); ("quantity", VNum 3);
                  ("properties", VObj [("engraving", VStr "A%20B")])]) /\
  ("gift wrap" = "gift wrap" ->
   lookup "note" (props Sample.update_payload) = Some (VStr "gift%20wrap")).
Proof.
  pose proof (payload_values_percent_encoded
                Sample.updates (VBool false) "gift wrap" Sample.attributes
                Sample.update_payload (VNum 2) (VNum 3) (VBool true)
                Sample.properties VNull
                (VObj [("line", VNum 2); ("quantity", VNum 3);
                       ("properties", VObj [("engraving", VStr "A%20B")])])
                eq_refl eq_refl eq_refl eq_refl) as H.
  exact (conj eq_refl (conj eq_refl (conj eq_refl (conj eq_refl
           (proj1 (proj2 (proj2 (proj2 H)))))))).
Defined.

Lemma useLineNumbers_has_no_effect_witness :
  wf_obj [("1", VNum 2); ("2", VNum 0)] = true /\
  updatesPayload (VObj [("1", VNum 2); ("2", VNum 0)]) (VBool true)
  = updatesPayload (VObj [("1", VNum 2); ("2", VNum 0)]) (VBool false).
Proof.
  exact (conj eq_refl
           (proj1 (useLineNumbers_has_no_effect
                     [("1", VNum 2); ("2", VNum 0)]
                     (VStr "gift wrap") (VObj Sample.attributes) eq_refl))).
Defined.

Lemma addToCart_posts_then_fetches_witness :
  platform Sample.ok_world
    (sent Sample.ok_world
       ++ [addToCart_request (root Sample.ok_world) Sample.items])
  = Responded Sample.ok_response /\
  ok Sample.ok_response = true /\
  sent (snd (addToCart Sample.items Sample.ok_world))
  = sent Sample.ok_world
      ++ [addToCart_request (root Sample.ok_world) Sample.items;
          fetchCart_request (root Sample.ok_world)].
Proof.
  exact (conj eq_refl (conj eq_refl
           (proj1 (proj2 (proj2
              (addToCart_posts_then_fetches Sample.items Sample.ok_world
                 Sample.ok_response eq_refl eq_refl)))))).
Defined.

Lemma clearCart_returns_what_fetchCart_returns_witness :
  platform Sample.ok_world
    (sent Sample.ok_world ++ [clearCart_request (root Sample.ok_world)])
  = Responded Sample.ok_response /\
  ok Sample.ok_response = true /\
  fst (clearCart Sample.ok_world)
  = fst (fetchCart (after_request Sample.ok_world
                      (clearCart_request (root Sample.ok_world)))).
Proof.
  exact (conj eq_refl (conj eq_refl
           (clearCart_returns_what_fetchCart_returns Sample.ok_world
              Sample.ok_response eq_refl eq_refl))).
Defined.

Lemma fetchCart_never_inspects_status_witness :
  platform Sample.error_world
    (sent Sample.error_world ++ [fetchCart_request (root Sample.error_world)])
  = Responded Sample.error_response /\
  json_body Sample.error_response = Normal Sample.error_body /\
  fst (fetchCart Sample.error_world) = Normal Sample.error_body.
Proof.
  exact (conj eq_refl (conj eq_refl
           (proj1 (proj2 (fetchCart_never_inspects_status Sample.error_world))
              Sample.error_response Sample.error_body eq_refl eq_refl))).
Defined.

(* ================================================================= *)
(** ** More about the payloads *)

(** X1. Whatever the types of the arguments, the payload of [updateCart] has
    the key [updates] first, then [note] exactly when the note is truthy,
    then [attributes] exactly when the attributes value has an own property;
    so a note of [0] or [false] is left out like the empty string.  Without
    the [useLineNumbers] flag the [updates] value is the argument itself. *)
Theorem updateCart_payload_keys
  (updates useLineNumbers note attributes requestData : value) :
  updateCart_requestData updates useLineNumbers note attributes
  = Normal requestData ->
  map fst (props requestData)
  = "updates" :: (if truthy note then ["note"] else [])
              ++ (if nonempty (own_props attributes) then ["attributes"]
                  else []) /\
  (truthy useLineNumbers = false ->
   lookup "updates" (props requestData) = Some updates).
Proof.
  intros H.
  destruct (updateCart_requestData_general _ _ _ _ _ H)
    as (X & N & A & HX & HN & HA & ->).
  unfold note_field in HN. unfold object_field in HA.
  split.
  - destruct (truthy note), (nonempty (own_props attributes));
      resolve_field HN; resolve_field HA; reflexivity.
  - intros Hf. unfold updatesPayload in HX.
    assert (Hd : truthy (default_to (VBool false) useLineNumbers) = false)
      by (destruct useLineNumbers; try discriminate; assumption || reflexivity).
    rewrite Hd, object_literal_one in HX. injection HX as <-. reflexivity.
Qed.

(** X2. Whatever the types of the arguments, the payload of [changeCartItem]
    has exactly one locator key, [line] when [useLine] is truthy and [id]
    otherwise, then [quantity], then [properties] exactly when the properties
    value has an own property, then [selling_plan] exactly when the plan is
    truthy.  The locator, the quantity and the selling plan are the arguments
    themselves: they are not percent-encoded. *)
Theorem changeCartItem_payload_keys
  (lineOrId quantity useLine properties sellingPlan changeData : value) :
  changeCartItem_requestData lineOrId quantity useLine properties sellingPlan
  = Normal changeData ->
  map fst (props changeData)
  = (if truthy useLine then "line" else "id") :: "quantity"
      :: (if nonempty (own_props properties) then ["properties"] else [])
      ++ (if truthy sellingPlan then ["selling_plan"] else []) /\
  lookup (if truthy useLine then "line" else "id") (props changeData)
  = Some lineOrId /\
  lookup (if truthy useLine then "id" else "line") (props changeData) = None /\
  lookup "quantity" (props changeData) = Some quantity /\
  (truthy sellingPlan = true ->
   lookup "selling_plan" (props changeData) = Some sellingPlan).
Proof.
  intros H.
  destruct (changeCartItem_requestData_general _ _ _ _ _ _ H) as (P & HP & ->).
  unfold object_field in HP.
  destruct (truthy useLine), (nonempty (own_props properties)),
    (truthy sellingPlan); resolve_field HP;
    repeat split; try reflexivity; discriminate.
Qed.

(** X3. Two different notes never give the same payload: with the other
    arguments equal, the payloads of [updateCart] differ as soon as the note
    strings do. *)
Theorem different_notes_different_payloads
  (updates useLineNumbers attributes : value) (note1 note2 : string)
  (requestData1 requestData2 : value) :
  note1 <> note2 ->
  updateCart_requestData updates useLineNumbers (VStr note1) attributes
  = Normal requestData1 ->
  updateCart_requestData updates useLineNumbers (VStr note2) attributes
  = Normal requestData2 ->
  requestData1 <> requestData2.
Proof.
  intros Hne H1 H2.
  destruct (updateCart_requestData_general _ _ _ _ _ H1)
    as (X1 & N1 & A1 & _ & HN1 & HA1 & ->).
  destruct (updateCart_requestData_general _ _ _ _ _ H2)
    as (X2 & N2 & A2 & _ & HN2 & HA2 & ->).
  assert (A2 = A1) as ->.
  { unfold object_field in HA1, HA2.
    destruct (nonempty (own_props attributes)); [|congruence].
    destruct HA1 as (es1 & E1 & ->), HA2 as (es2 & E2 & ->). congruence. }
  unfold note_field in HN1, HN2. cbn [truthy] in HN1, HN2.
  destruct (String.eqb_spec note1 EmptyString) as [->|Hn1];
    destruct (String.eqb_spec note2 EmptyString) as [->|Hn2];
    cbn [negb] in HN1, HN2.
  - congruence.
  - destruct HN2 as (e2 & _ & ->). subst N1. intros [= _ E].
    apply (f_equal (@List.length _)) in E. cbn [app List.length] in E. lia.
  - destruct HN1 as (e1 & _ & ->). subst N2. intros [= _ E].
    apply (f_equal (@List.length _)) in E. cbn [app List.length] in E. lia.
  - destruct HN1 as (e1 & E1 & ->), HN2 as (e2 & E2 & ->).
    apply encodeURIComponent_string in E1, E2. subst e1 e2.
    intros [= _ E]. apply Hne. now apply encode_bytes_inj.
Qed.

Lemma escape_cons_plain (a : ascii) (t : string) :
  (N_of_ascii a =? 237)%N = false ->
  escape (String a t) = (escape_char a ++ escape t)%string.
Proof.
  intros H. destruct t as [|b [|c t']]; cbn [escape]; try reflexivity.
  now rewrite H.
Qed.

Lemma unreserved_plain (c : ascii) :
  unreserved c = true ->
  (N_of_ascii c =? 237)%N = false /\ escape_char c = String c EmptyString.
Proof.
  destruct c as [[] [] [] [] [] [] [] []]; vm_compute;
    first [discriminate | intros _; split; reflexivity].
Qed.

Lemma percent_plain (c : ascii) :
  exists h1 h2 : ascii,
    percent c = String "%" (String h1 (String h2 EmptyString)) /\
    (N_of_ascii h1 =? 237)%N = false /\
    escape_char h1 = String h1 EmptyString /\
    (N_of_ascii h2 =? 237)%N = false /\
    escape_char h2 = String h2 EmptyString.
Proof.
  exists (hex_upper (N_of_ascii c / 16)), (hex_upper (N_of_ascii c mod 16)).
  split; [reflexivity|].
  destruct c as [[] [] [] [] [] [] [] []]; vm_compute; repeat split.
Qed.

Lemma escape_unreserved (c : ascii) (t : string) :
  unreserved c = true -> escape (String c t) = String c (escape t).
Proof.
  intros Hc. destruct (unreserved_plain c Hc) as [H1 H2].
  now rewrite (escape_cons_plain c t H1), H2.
Qed.

Lemma escape_percent (c : ascii) (t : string) :
  escape (percent c ++ t)%string = (percent c ++ escape t)%string.
Proof.
  destruct (percent_plain c) as (h1 & h2 & -> & A1 & E1 & A2 & E2).
  cbn [append].
  rewrite (escape_cons_plain "%" _ eq_refl).
  rewrite (escape_cons_plain h1 _ A1), E1.
  rewrite (escape_cons_plain h2 _ A2), E2.
  reflexivity.
Qed.

Lemma escape_encode_bytes (s : string) :
  escape (encode_bytes s) = encode_bytes s.
Proof.
  induction s as [|c s IH]; [reflexivity|].
  cbn [encode_bytes]. destruct (unreserved c) eqn:Hc.
  - now rewrite (escape_unreserved c _ Hc), IH.
  - now rewrite escape_percent, IH.
Qed.

(** X4. A percent-encoded value needs no JSON escaping: whenever
    [encodeURIComponent(v)] returns, [JSON.stringify] writes its result into
    the body as it is, between two double quotes; so it does with the
    encoding of any text. *)
Theorem encoded_value_is_serialised_verbatim (v : value) (encoded : string) :
  encodeURIComponent v = Normal encoded ->
  JSON_stringify (VStr encoded)
  = Some (String dquote (encoded ++ String dquote EmptyString)%string) /\
  forall text : string,
    JSON_stringify (VStr (encode_bytes text))
    = Some (String dquote
              (encode_bytes text ++ String dquote EmptyString)%string).
Proof.
  assert (Hall : forall text : string,
             JSON_stringify (VStr (encode_bytes text))
             = Some (String dquote
                       (encode_bytes text ++ String dquote EmptyString)%string)).
  { intros text. unfold JSON_stringify. cbn [to_json option_map render].
    unfold quote. now rewrite escape_encode_bytes. }
  intros H. apply encodeURIComponent_text in H as (text & _ & ->).
  split; [apply Hall | exact Hall].
Qed.

(* ================================================================= *)
(** ** More about requests, results and errors *)


(** X10. An operation that returns JSON ([updateCart], [changeCartItem],
    [fetchShippingRates]) sends its one request and then: rejects with the
    transport error when the request fails; rejects with the status error
    when the response is not [ok]; otherwise returns the outcome of reading
    the body as JSON, a parse error included. *)
Theorem json_operations_result (op : operation) (w : World) (req : request) :
  returns_json op = true ->
  first_request op (root w) = Normal req ->
  fst (run op w)
  = match platform w (sent w ++ [req]) with
    | Responded r => if ok r then json_body r else Abrupt (http_error r)
    | Failed e => Abrupt e
    end /\
  sent (snd (run op w)) = sent w ++ [req].
Proof.
  intros Hj. destruct op; try discriminate; cbn [first_request run];
    unfold_async; payload_cases; intros Hreq.
  all: try discriminate.
  all: injection Hreq as <-; cbn [root platform sent console];
    platform_cases w; split; reflexivity.
Qed.

(** X11. [prepareShippingRates] never reads the body as JSON: after an [ok]
    response it returns the text of the body, also when that text is not
    JSON; it rejects on a transport failure, on a response that is not [ok]
    and when the text cannot be read. *)
Theorem prepareShippingRates_returns_text (w : World) :
  let req := prepareShippingRates_request (root w) in
  fst (prepareShippingRates w)
  = match platform w (sent w ++ [req]) with
    | Responded r =>
        if ok r then
          match text_body r with
          | Normal text => Normal (VStr text)
          | Abrupt e => Abrupt e
          end
        else Abrupt (http_error r)
    | Failed e => Abrupt e
    end /\
  sent (snd (prepareShippingRates w)) = sent w ++ [req].
Proof.
  cbv zeta. unfold_async. platform_cases w; split; reflexivity.
Qed.

(** X12. When [addToCart] or [clearCart] has its own request accepted and the
    [fetchCart] that follows rejects, the error is printed twice, first by
    [fetchCart] and then by the operation, and the operation rejects with
    that same error after its two requests. *)
Theorem failed_refetch_is_logged_twice
  (op : operation) (w : World) (req : request) (r : response) (e : error) :
  refetches op = true ->
  first_request op (root w) = Normal req ->
  platform w (sent w ++ [req]) = Responded r ->
  ok r = true ->
  fst (fetchCart (after_request w req)) = Abrupt e ->
  run op w
  = (Abrupt e,
     MkWorld (root w) (platform w)
       (sent w ++ [req; fetchCart_request (root w)])
       (console w ++ [("Error fetching cart:", e); (diagnostic op, e)])).
Proof.
  intros Hr Hreq Hp Hok.
  assert (Hrun : run op w = then_fetchCart (diagnostic op) req w).
  { destruct op; try discriminate; cbn [first_request] in Hreq;
      injection Hreq as <-; [apply addToCart_run | apply clearCart_run]. }
  rewrite Hrun. unfold then_fetchCart. cbv zeta.
  rewrite fetchCart_run. cbv zeta. unfold after_request, after_log.
  cbn [root platform sent console]. rewrite Hp, Hok.
  rewrite <- !app_assoc. simpl app.
  destruct (platform w (sent w ++ [req; fetchCart_request (root w)]))
    as [r2|e2]; [destruct (json_body r2) as [cart|e2]|]; cbn [fst];
    intros [= <-]; cbn [root platform sent console];
    rewrite <- ?app_assoc; reflexivity.
Qed.

(** When the payload cannot be built the operation rejects with the error
    of the builder, printed with its message, and sends nothing. *)
Lemma unbuilt_payload_sends_nothing
  (updates useLineNumbers note attributes : value)
  (lineOrId quantity useLine properties sellingPlan : value)
  (e : error) (w : World) :
  (updateCart_requestData updates useLineNumbers note attributes = Abrupt e ->
   updateCart updates useLineNumbers note attributes w
   = (Abrupt e, after_log w "Error updating cart:" e)) /\
  (changeCartItem_requestData lineOrId quantity useLine properties sellingPlan
   = Abrupt e ->
   changeCartItem lineOrId quantity useLine properties sellingPlan w
   = (Abrupt e, after_log w "Error changing cart item:" e)).
Proof.
  split; intros H; [unfold updateCart | unfold changeCartItem];
    rewrite H; reflexivity.
Qed.





(** X19. A note that holds an unpaired surrogate makes [updateCart] reject
    with the [URIError] of [encodeURIComponent], printed with its message,
    before any request is sent; so does [changeCartItem] when the value of
    its first property is such a string. *)
Theorem malformed_text_sends_nothing
  (updates useLineNumbers attributes p : value) (note : string)
  (lineOrId quantity useLine sellingPlan : value)
  (key text : string) (properties : obj) (w : World) :
  updatesPayload updates (default_to (VBool false) useLineNumbers)
  = Normal p ->
  lone_surrogate note = true ->
  encodable (VStr key) = true ->
  lone_surrogate text = true ->
  updateCart updates useLineNumbers (VStr note) attributes w
  = (Abrupt URI_malformed, after_log w "Error updating cart:" URI_malformed) /\
  changeCartItem lineOrId quantity useLine
    (VObj ((key, VStr text) :: properties)) sellingPlan w
  = (Abrupt URI_malformed,
     after_log w "Error changing cart item:" URI_malformed).
Proof.
  intros Hp Hn Hk Ht. split.
  - apply (unbuilt_payload_sends_nothing updates useLineNumbers (VStr note)
             attributes VNull VNull VNull VNull VNull URI_malformed w).
    unfold updateCart_requestData. rewrite Hp. cbn [cbind default_to].
    assert (Hne : truthy (VStr note) = true)
      by (destruct note; [discriminate | reflexivity]).
    rewrite Hne. unfold encodeURIComponent. cbn [ToString cbind].
    rewrite Hn. reflexivity.
  - apply (unbuilt_payload_sends_nothing VNull VNull VNull VNull lineOrId
             quantity useLine (VObj ((key, VStr text) :: properties))
             sellingPlan URI_malformed w).
    unfold changeCartItem_requestData, encoded_field.
    cbn [default_to Object_keys Object_entries own_props cbind map
         List.length Nat.ltb Nat.leb map_completion fst snd].
    unfold encode_entry. cbn [fst snd]. unfold encodable in Hk.
    destruct (encodeURIComponent (VStr key)); [|discriminate].
    cbn [cbind]. unfold encodeURIComponent. cbn [ToString cbind].
    rewrite Ht. reflexivity.
Qed.

Ltac on_endpoint :=
  eexists; split; [|split]; [ | reflexivity | ];
  [ simpl; tauto
  | first [ intros H; discriminate H | intros _; split; reflexivity ] ].

(** X15. No operation talks to anything but the cart endpoints: every request
    it adds goes to the root path followed by one of the seven paths of the
    source, and a [GET] carries neither headers nor body. *)
Theorem requests_stay_on_the_cart_endpoints (op : operation) (w : World) :
  exists reqs,
    sent (snd (run op w)) = sent w ++ reqs /\
    Forall (fun req =>
              exists path,
                In path endpoints /\
                req_url req = (root w ++ path)%string /\
                (req_method req = GET ->
                 req_headers req = [] /\ req_body req = None)) reqs.
Proof.
  destruct op; cbn [run]; unfold_async; payload_cases; platform_cases w;
    first
      [ exists []; split; [now rewrite app_nil_r | constructor]
      | eexists [_]; split; [reflexivity|];
        repeat (constructor; [on_endpoint|]); constructor
      | eexists [_; _]; split; [now rewrite <- app_assoc|];
        repeat (constructor; [on_endpoint|]); constructor ].
Qed.

(* ================================================================= *)
(** ** Numbers written in decimal *)

Section DecimalText.

Lemma Z_to_int_nonnil (n : Z) :
  Z.to_int n <> Decimal.Pos Decimal.Nil /\ Z.to_int n <> Decimal.Neg Decimal.Nil.
Proof.
  destruct n as [|p|p]; simpl; split; try discriminate;
    intros [= H]; now apply (DecimalPos.Unsigned.to_uint_nonnil p).
Qed.

(** The decimal text of a number tells the number. *)
Lemma Number_toString_inj (n m : Z) :
  Number_toString n = Number_toString m -> n = m.
Proof.
  unfold Number_toString. intros H.
  apply DecimalZ.to_int_inj.
  destruct (Z_to_int_nonnil n) as [Hn1 Hn2].
  destruct (Z_to_int_nonnil m) as [Hm1 Hm2].
  pose proof (NilZero.isi _ Hn1 Hn2) as En.
  pose proof (NilZero.isi _ Hm1 Hm2) as Em.
  rewrite H in En. congruence.
Qed.

Lemma parse_digits_acc (d : Decimal.uint) :
  forall acc : positive,
    parse_digits (Npos acc) (NilEmpty.string_of_uint d)
    = Some (Npos (Pos.of_uint_acc d acc)).
Proof.
  induction d; intros acc; cbn [NilEmpty.string_of_uint Pos.of_uint_acc];
    [reflexivity|..];
    change (parse_digits (N.pos acc) (String ?c ?s))
      with (parse_digits (N.pos acc) (String c s));
    unfold parse_digits; fold parse_digits;
    match goal with
    | |- context [digit_of ?c] =>
        let r := eval vm_compute in (digit_of c) in
        change (digit_of c) with r
    end; cbv iota beta;
    rewrite <- IHd; f_equal; lia.
Qed.

Lemma parse_digits_uint (d : Decimal.uint) :
  parse_digits 0 (NilEmpty.string_of_uint d) = Some (Pos.of_uint d).
Proof.
  induction d; cbn [NilEmpty.string_of_uint Pos.of_uint];
    [reflexivity|..];
    unfold parse_digits; fold parse_digits;
    match goal with
    | |- context [digit_of ?c] =>
        let r := eval vm_compute in (digit_of c) in
        change (digit_of c) with r
    end; cbv iota beta;
    first [ exact IHd | apply parse_digits_acc ].
Qed.

Lemma nzhead_no_leading_zero (d d' : Decimal.uint) : Decimal.nzhead d <> Decimal.D0 d'.
Proof. induction d; simpl; try discriminate; assumption. Qed.

Lemma to_uint_no_leading_zero (p : positive) (d : Decimal.uint) :
  Pos.to_uint p <> Decimal.D0 d.
Proof.
  intros H.
  pose proof (DecimalPos.Unsigned.to_of (Pos.to_uint p)) as Hn.
  rewrite DecimalPos.Unsigned.of_to in Hn. simpl in Hn.
  rewrite H in Hn. rewrite DecimalFacts.unorm_D0 in Hn. unfold Decimal.unorm in Hn.
  destruct (Decimal.nzhead d) eqn:Hz;
    try (symmetry in Hn; rewrite <- Hz in Hn;
         now apply nzhead_no_leading_zero in Hn).
  injection Hn as ->. now apply (DecimalPos.Unsigned.to_uint_nonzero p).
Qed.

End DecimalText.

(* ================================================================= *)
(** ** Arrays seen as objects *)

Section ArrayKeys.

Lemma array_index_of_number (n : N) :
  (n <? 4294967295)%N = true ->
  array_index (Number_toString (Z.of_N n)) = Some n.
Proof.
  intros Hn. destruct n as [|p]; [reflexivity|].
  unfold Number_toString. cbn [Z.of_N Z.to_int NilZero.string_of_int].
  pose proof (parse_digits_uint (Pos.to_uint p)) as Hp.
  rewrite DecimalPos.Unsigned.of_to in Hp.
  destruct (Pos.to_uint p) eqn:Hd;
    [ now apply DecimalPos.Unsigned.to_uint_nonnil in Hd
    | now apply to_uint_no_leading_zero in Hd
    | .. ];
    cbn [NilZero.string_of_uint NilEmpty.string_of_uint] in *;
    unfold array_index; rewrite Hp, Hn; reflexivity.
Qed.

Lemma array_index_of_nat (i : nat) :
  (N.of_nat i <? 4294967295)%N = true ->
  array_index (Number_toString (Z.of_nat i)) = Some (N.of_nat i).
Proof.
  intros H. rewrite <- nat_N_Z. now apply array_index_of_number.
Qed.

Lemma key_before_numbers (i j : nat) :
  (i < j)%nat -> (N.of_nat j <? 4294967295)%N = true ->
  key_before (Number_toString (Z.of_nat i)) (Number_toString (Z.of_nat j))
  = true.
Proof.
  intros Hij Hj. apply N.ltb_lt in Hj.
  assert (Hi : (N.of_nat i <? 4294967295)%N = true) by (apply N.ltb_lt; lia).
  assert (Hj' : (N.of_nat j <? 4294967295)%N = true) by (apply N.ltb_lt; lia).
  unfold key_before.
  rewrite (array_index_of_nat i Hi), (array_index_of_nat j Hj').
  apply andb_true_iff. split.
  - apply negb_true_iff, String.eqb_neq. intros E.
    apply Number_toString_inj in E. lia.
  - apply N.ltb_lt. lia.
Qed.

Lemma indexed_keys_after {A : Type} (l : list A) :
  forall i j : nat,
    (i < j)%nat ->
    (N.of_nat (j + List.length l) <=? 4294967295)%N = true ->
    forallb (key_before (Number_toString (Z.of_nat i)))
      (map fst (indexed j l)) = true.
Proof.
  induction l as [|x l IH]; intros i j Hij Hb; [reflexivity|].
  cbn [indexed map fst forallb List.length] in *.
  apply N.leb_le in Hb.
  rewrite key_before_numbers by (try apply N.ltb_lt; lia).
  apply IH; [lia | apply N.leb_le; lia].
Qed.

(** The entries of an array are those of an object. *)
Lemma indexed_wf (l : list value) :
  forall i : nat,
    (N.of_nat (i + List.length l) <=? 4294967295)%N = true ->
    wf_obj (indexed i l) = true.
Proof.
  unfold wf_obj.
  induction l as [|x l IH]; intros i Hb; [reflexivity|].
  cbn [indexed map fst keys_ordered List.length] in *.
  apply N.leb_le in Hb.
  rewrite indexed_keys_after by (try apply N.leb_le; lia).
  apply IH. apply N.leb_le. lia.
Qed.

Lemma lookup_indexed (l : list value) :
  forall i j : nat,
    lookup (Number_toString (Z.of_nat (j + i))) (indexed j l) = nth_error l i.
Proof.
  induction l as [|x l IH]; intros i j; [now destruct i|].
  cbn [indexed lookup]. destruct i as [|i].
  - rewrite Nat.add_0_r, String.eqb_refl. reflexivity.
  - assert (Hne : String.eqb (Number_toString (Z.of_nat j))
                    (Number_toString (Z.of_nat (j + S i))) = false).
    { apply String.eqb_neq. intros E. apply Number_toString_inj in E. lia. }
    rewrite Hne. replace (j + S i)%nat with (S j + i)%nat by lia. apply IH.
Qed.

End ArrayKeys.

(** X16. The message of the status error tells the status: two responses whose
    status errors are equal have the same status code. *)
Theorem status_error_tells_the_status (r1 r2 : response) :
  http_error r1 = http_error r2 -> status r1 = status r2.
Proof.
  unfold http_error. intros [= H]. now apply Number_toString_inj.
Qed.

(** X17. An array given as [updates]: without [useLineNumbers] it is sent as
    the array; with it, it is sent as an object whose keys are the positions
    counted from zero, the quantity at position [i] under the key [i]. *)
Theorem array_updates_become_position_keyed (quantities : list value) :
  (N.of_nat (List.length quantities) <=? 4294967295)%N = true ->
  updatesPayload (VArr quantities) (VBool false)
  = Normal (VObj [("updates", VArr quantities)]) /\
  updatesPayload (VArr quantities) (VBool true)
  = Normal (VObj [("updates", VObj (indexed 0 quantities))]) /\
  forall i : nat,
    lookup (Number_toString (Z.of_nat i)) (indexed 0 quantities)
    = nth_error quantities i.
Proof.
  intros Hb. split; [|split].
  - unfold updatesPayload. cbn [truthy]. now rewrite object_literal_one.
  - unfold updatesPayload. cbn [truthy Object_entries own_props cbind].
    rewrite map_pair_id, object_literal_one.
    now rewrite (fromEntries_entries _ (indexed_wf quantities 0 Hb)).
  - intros i. exact (lookup_indexed quantities i 0).
Qed.

(* ================================================================= *)
(** ** Arguments that are left out *)

Lemma note_field_key (note : value) (field : obj) (k : string) (v : value) :
  note_field note field -> In (k, v) field -> k = "note".
Proof.
  unfold note_field. destruct (truthy note).
  - intros (e & _ & ->) [[= <- _]|[]]. reflexivity.
  - intros -> [].
Qed.

Lemma object_field_key (name : string) (x : value) (field : obj)
  (k : string) (v : value) :
  object_field name x field -> In (k, v) field -> k = name.
Proof.
  unfold object_field. destruct (nonempty (own_props x)).
  - intros (e & _ & ->) [[= <- _]|[]]. reflexivity.
  - intros -> [].
Qed.

Lemma updatesPayload_without_flag (updates useLineNumbers : value) :
  truthy useLineNumbers = false ->
  updatesPayload updates (default_to (VBool false) useLineNumbers)
  = Normal (VObj [("updates", updates)]).
Proof.
  intros H. unfold updatesPayload.
  rewrite (truthy_default (VBool false) useLineNumbers eq_refl), H.
  now rewrite object_literal_one.
Qed.

Lemma to_json_kept (v : value) : to_json v <> None <-> json_drops v = false.
Proof. destruct v; simpl; split; congruence. Qed.

(** X18. The required arguments are never validated.  An argument is put in
    the payload as it is: the body has the key [items], [updates], [quantity]
    or the locator key exactly when [JSON.stringify] serialises that argument
    to something.  It serialises [undefined] (an argument left out), a
    function and a symbol to nothing, so such an argument leaves no key. *)
Theorem undefined_arguments_leave_no_key
  (items updates useLineNumbers note attributes requestData : value)
  (lineOrId quantity useLine properties sellingPlan changeData : value) :
  updateCart_requestData updates useLineNumbers note attributes
  = Normal requestData ->
  changeCartItem_requestData lineOrId quantity useLine properties sellingPlan
  = Normal changeData ->
  (In "items" (serialized_keys (object_literal [Field "items" items]))
   <-> to_json items <> None) /\
  (truthy useLineNumbers = false ->
   (In "updates" (serialized_keys requestData)
    <-> to_json updates <> None)) /\
  (In "quantity" (serialized_keys changeData)
   <-> to_json quantity <> None) /\
  (In (if truthy useLine then "line" else "id") (serialized_keys changeData)
   <-> to_json lineOrId <> None) /\
  (forall v, json_drops v = true -> to_json v = None).
Proof.
  intros Hu Hc. rewrite !to_json_kept.
  destruct (updateCart_requestData_general _ _ _ _ _ Hu)
    as (X & N & A & HX & HN & HA & ->).
  destruct (changeCartItem_requestData_general _ _ _ _ _ _ Hc)
    as (P & HP & ->).
  rewrite object_literal_one.
  split; [|split; [|split; [|split]]];
    [ | | | | intros v Hv; now apply to_json_dropped ].
  - rewrite serialized_keys_spec. split.
    + intros (v & [[= <-]|[]] & Hd). exact Hd.
    + intros Hd. exists items. split; [now left | exact Hd].
  - intros Hf. rewrite (updatesPayload_without_flag _ _ Hf) in HX.
    injection HX as <-. rewrite serialized_keys_spec. split.
    + intros (v & [[= <-]|Hin] & Hd); [exact Hd|].
      apply in_app_or in Hin as [Hin|Hin].
      * apply (note_field_key _ _ _ _ HN) in Hin. discriminate.
      * apply (object_field_key _ _ _ _ _ HA) in Hin. discriminate.
    + intros Hd. exists updates. split; [now left | exact Hd].
  - rewrite serialized_keys_spec. split.
    + intros (v & [[= Hk _]|[[= <-]|Hin]] & Hd); [|exact Hd|].
      * destruct (truthy useLine); discriminate.
      * apply in_app_or in Hin as [Hin|Hin].
        -- apply (object_field_key _ _ _ _ _ HP) in Hin. discriminate.
        -- destruct (truthy sellingPlan); [|destruct Hin].
           destruct Hin as [[= ]|[]].
    + intros Hd. exists quantity. split; [right; now left | exact Hd].
  - rewrite serialized_keys_spec. split.
    + intros (v & [[= <-]|[[= Hk _]|Hin]] & Hd); [exact Hd| |].
      * destruct (truthy useLine); discriminate.
      * apply in_app_or in Hin as [Hin|Hin].
        -- apply (object_field_key _ _ _ _ _ HP) in Hin.
           destruct (truthy useLine); discriminate.
        -- destruct (truthy sellingPlan); [|destruct Hin].
           destruct Hin as [[= Hk _]|[]].
           destruct (truthy useLine); discriminate.
    + intros Hd. exists lineOrId. split; [now left | exact Hd].
Qed.

(* ================================================================= *)
(** ** The further theorems at sample inputs *)

Lemma updateCart_payload_keys_witness :
  updateCart_requestData Sample.updates VUndefined (VNum 0)
    (VObj Sample.attributes) = Normal Scenario.no_note_payload /\
  map fst (props Scenario.no_note_payload) = ["updates"; "attributes"].
Proof.
  exact (conj eq_refl
           (proj1 (updateCart_payload_keys Sample.updates VUndefined (VNum 0)
                     (VObj Sample.attributes) Scenario.no_note_payload
                     eq_refl))).
Defined.

Lemma changeCartItem_payload_keys_witness :
  changeCartItem_requestData (VStr "794864229:abc") (VNum 0) VUndefined
    VUndefined (VNum 0) = Normal Scenario.remove_by_key_payload /\
  map fst (props Scenario.remove_by_key_payload) = ["id"; "quantity"].
Proof.
  exact (conj eq_refl
           (proj1 (changeCartItem_payload_keys (VStr "794864229:abc") (VNum 0)
                     VUndefined VUndefined (VNum 0)
                     Scenario.remove_by_key_payload eq_refl))).
Defined.

Lemma different_notes_different_payloads_witness :
  "a b" <> "a%20b" /\
  updateCart_requestData Sample.updates VUndefined (VStr "a b") VUndefined
  = Normal (VObj [("updates", VObj [("1", VNum 2)]);
                  ("note", VStr "a%20b")]) /\
  updateCart_requestData Sample.updates VUndefined (VStr "a%20b") VUndefined
  = Normal (VObj [("updates", VObj [("1", VNum 2)]);
                  ("note", VStr "a%2520b")]) /\
  VObj [("updates", VObj [("1", VNum 2)]); ("note", VStr "a%20b")]
  <> VObj [("updates", VObj [("1", VNum 2)]); ("note", VStr "a%2520b")].
Proof.
  split; [discriminate|]. split; [reflexivity|]. split; [reflexivity|].
  apply (different_notes_different_payloads Sample.updates VUndefined
           VUndefined "a b" "a%20b");
    [discriminate | reflexivity | reflexivity].
Defined.

Lemma status_checked_operations_reject_witness :
  checks_status ClearCart = true /\
  first_request ClearCart (root Sample.error_world)
  = Normal (clearCart_request "/") /\
  platform Sample.error_world
    (sent Sample.error_world ++ [clearCart_request "/"])
  = Responded Sample.error_response /\
  ok Sample.error_response = false /\
  run ClearCart Sample.error_world
  = (Abrupt (http_error Sample.error_response),
     after_log (after_request Sample.error_world (clearCart_request "/"))
       (diagnostic ClearCart) (http_error Sample.error_response)).
Proof.
  exact (conj eq_refl (conj eq_refl (conj eq_refl (conj eq_refl
           (status_checked_operations_reject ClearCart Sample.error_world
              (clearCart_request "/") Sample.error_response
              eq_refl eq_refl eq_refl eq_refl))))).
Defined.

Lemma transport_failure_is_rethrown_witness :
  first_request FetchCart (root Scenario.offline_world)
  = Normal (fetchCart_request "/") /\
  platform Scenario.offline_world
    (sent Scenario.offline_world ++ [fetchCart_request "/"])
  = Failed Scenario.offline /\
  run FetchCart Scenario.offline_world
  = (Abrupt Scenario.offline,
     after_log (after_request Scenario.offline_world (fetchCart_request "/"))
       (diagnostic FetchCart) Scenario.offline).
Proof.
  exact (conj eq_refl (conj eq_refl
           (transport_failure_is_rethrown FetchCart Scenario.offline_world
              (fetchCart_request "/") Scenario.offline eq_refl eq_refl))).
Defined.

Lemma rejection_is_logged_witness :
  fst (run (AddToCart Sample.items) Scenario.drops_after_first_world)
  = Abrupt Scenario.offline /\
  exists lines,
    console (snd (run (AddToCart Sample.items)
                    Scenario.drops_after_first_world))
    = console Scenario.drops_after_first_world ++ lines
        ++ [(diagnostic (AddToCart Sample.items), Scenario.offline)].
Proof.
  exact (conj eq_refl
           (rejection_is_logged (AddToCart Sample.items)
              Scenario.drops_after_first_world Scenario.offline eq_refl)).
Defined.

Lemma resolution_prints_nothing_witness :
  fst (run PrepareShippingRates Scenario.text_world) = Normal (VStr "started") /\
  console (snd (run PrepareShippingRates Scenario.text_world))
  = console Scenario.text_world.
Proof.
  exact (conj eq_refl
           (resolution_prints_nothing PrepareShippingRates Scenario.text_world
              (VStr "started") eq_refl)).
Defined.

Lemma json_operations_result_witness :
  returns_json FetchShippingRates = true /\
  first_request FetchShippingRates (root Sample.ok_world)
  = Normal (fetchShippingRates_request "/") /\
  sent (snd (run FetchShippingRates Sample.ok_world))
  = sent Sample.ok_world ++ [fetchShippingRates_request "/"].
Proof.
  exact (conj eq_refl (conj eq_refl
           (proj2 (json_operations_result FetchShippingRates Sample.ok_world
                     (fetchShippingRates_request "/") eq_refl eq_refl)))).
Defined.

Lemma failed_refetch_is_logged_twice_witness :
  refetches ClearCart = true /\
  first_request ClearCart (root Scenario.drops_after_first_world)
  = Normal (clearCart_request "/") /\
  platform Scenario.drops_after_first_world
    (sent Scenario.drops_after_first_world ++ [clearCart_request "/"])
  = Responded Sample.ok_response /\
  ok Sample.ok_response = true /\
  fst (fetchCart (after_request Scenario.drops_after_first_world
                    (clearCart_request "/")))
  = Abrupt Scenario.offline /\
  run ClearCart Scenario.drops_after_first_world
  = (Abrupt Scenario.offline,
     MkWorld "/" (platform Scenario.drops_after_first_world)
       [clearCart_request "/"; fetchCart_request "/"]
       [("Error fetching cart:", Scenario.offline);
        ("Error clearing cart:", Scenario.offline)]).
Proof.
  exact (conj eq_refl (conj eq_refl (conj eq_refl (conj eq_refl (conj eq_refl
           (failed_refetch_is_logged_twice ClearCart
              Scenario.drops_after_first_world (clearCart_request "/")
              Sample.ok_response Scenario.offline
              eq_refl eq_refl eq_refl eq_refl eq_refl)))))).
Defined.

Lemma status_error_tells_the_status_witness :
  http_error Sample.ok_response = http_error Scenario.text_response /\
  status Sample.ok_response = status Scenario.text_response.
Proof.
  exact (conj eq_refl
           (status_error_tells_the_status Sample.ok_response
              Scenario.text_response eq_refl)).
Defined.

Lemma array_updates_become_position_keyed_witness :
  (N.of_nat (List.length [VNum 2; VNum 0]) <=? 4294967295)%N = true /\
  updatesPayload (VArr [VNum 2; VNum 0]) (VBool true)
  = Normal (VObj [("updates", VObj (indexed 0 [VNum 2; VNum 0]))]).
Proof.
  exact (conj eq_refl
           (proj1 (proj2 (array_updates_become_position_keyed
                            [VNum 2; VNum 0] eq_refl)))).
Defined.

Lemma undefined_arguments_leave_no_key_witness :
  updateCart_requestData VUndefined VUndefined VUndefined VUndefined
  = Normal (VObj [("updates", VUndefined)]) /\
  changeCartItem_requestData VUndefined VUndefined VUndefined VUndefined
    VUndefined
  = Normal (VObj [("id", VUndefined); ("quantity", VUndefined)]) /\
  (In "quantity"
     (serialized_keys (VObj [("id", VUndefined); ("quantity", VUndefined)]))
   <-> to_json VUndefined <> None) /\
  JSON_stringify (VObj [("id", VUndefined); ("quantity", VUndefined)])
  = Some "{}".
Proof.
  exact (conj eq_refl (conj eq_refl
           (conj (proj1 (proj2 (proj2
                    (undefined_arguments_leave_no_key VUndefined
                       VUndefined VUndefined VUndefined VUndefined
                       (VObj [("updates", VUndefined)])
                       VUndefined VUndefined VUndefined VUndefined VUndefined
                       (VObj [("id", VUndefined); ("quantity", VUndefined)])
                       eq_refl eq_refl))))
              eq_refl))).
Defined.

Lemma encoded_value_is_serialised_verbatim_witness :
  encodeURIComponent (VStr "gift wrap") = Normal "gift%20wrap" /\
  JSON_stringify (VStr "gift%20wrap")
  = Some (String dquote ("gift%20wrap" ++ String dquote EmptyString)%string).
Proof.
  exact (conj eq_refl
           (proj1 (encoded_value_is_serialised_verbatim (VStr "gift wrap")
                     "gift%20wrap" eq_refl))).
Defined.



Lemma malformed_text_sends_nothing_witness :
  updatesPayload Sample.updates (default_to (VBool false) VUndefined)
  = Normal (VObj [("updates", Sample.updates)]) /\
  lone_surrogate Scenario.lone_high_surrogate = true /\
  encodable (VStr "engraving") = true /\
  updateCart Sample.updates VUndefined (VStr Scenario.lone_high_surrogate)
    VUndefined Sample.ok_world
  = (Abrupt URI_malformed,
     after_log Sample.ok_world "Error updating cart:" URI_malformed).
Proof.
  exact (conj eq_refl (conj eq_refl (conj eq_refl
           (proj1 (malformed_text_sends_nothing Sample.updates VUndefined
                     VUndefined (VObj [("updates", Sample.updates)])
                     Scenario.lone_high_surrogate
                     (VNum 2) (VNum 3) (VBool true) VNull
                     "engraving" Scenario.lone_high_surrogate []
                     Sample.ok_world eq_refl eq_refl eq_refl eq_refl))))).
Defined.
